(** * lyra-js: liquidity history, account helpers and the trading-volume CLI

    A shallow embedding of three pieces of the SDK:
    - [fetchLiquidityHistory] (src/utils/fetchLiquidityHistory.ts),
    - the [Account] class (balances, unrealized PnL, faucet drip, staking
      windows),
    - the [optionTradingVolume] command-line entry point.

    Conventions.
    - An ethers [BigNumber] is an unbounded integer, a [Z].
    - A JS [number] that holds a timestamp or a duration (seconds) is the
      integer it stands for, a [Z]; [+] on two of them is [Number.add], the
      exact sum rounded to the nearest double.  A [number] that holds a
      ratio (utilization) is a [Q].
    - [number | null] is [option Z]; truthiness and the numeric coercion of
      [null] are written out ([truthy], [ToNumber]).
    - A function that may throw returns a [Result]; [Throw] carries the
      message of the [Error].
    - An awaited remote call is modelled by its resolved value, supplied by
      the collaborators declared as section variables. *)

From Stdlib Require Import ZArith List String Ascii Bool Lia QArith.
Import ListNotations.

Local Open Scope string_scope.
Local Open Scope Z_scope.

(** ** Exceptions *)

Inductive Result (A : Type) : Type :=
| Ok (value : A)
| Throw (message : string).

Arguments Ok {A} value.
Arguments Throw {A} message.

Definition bind {A B : Type} (r : Result A) (k : A -> Result B) : Result B :=
  match r with
  | Ok a => k a
  | Throw m => Throw m
  end.

Notation "x <- r ;; k" := (bind r (fun x => k))
  (at level 61, r at next level, right associativity).

(** [Array.prototype.map] with a callback that may throw: the first
    exception aborts the traversal. *)
Fixpoint mapM {A B : Type} (f : A -> Result B) (l : list A) : Result (list B) :=
  match l with
  | [] => Ok []
  | a :: l' =>
      b <- f a ;;
      bs <- mapM f l' ;;
      Ok (b :: bs)
  end.

(** ** ethers BigNumber *)

Module BigNumber.

Definition t : Type := Z.

Definition gt (a b : t) : bool := b <? a.
Definition sub (a b : t) : t := a - b.
Definition mul (a b : t) : t := a * b.

(** [div] truncates towards zero and throws on a zero divisor. *)
Definition div (a b : t) : Result t :=
  if b =? 0 then Throw "division-by-zero" else Ok (Z.quot a b).

Definition MAX_SAFE_INTEGER : Z := 2 ^ 53 - 1.

(** [toNumber] throws when the value does not fit in 53 bits. *)
Definition toNumber (a : t) : Result Z :=
  if Z.abs a <=? MAX_SAFE_INTEGER then Ok a else Throw "overflow".

(** [BigNumber.from] on a decimal string, the form in which the indexer
    sends an amount: an optional minus sign and at least one digit. *)
Definition digit (c : ascii) : option Z :=
  let n := nat_of_ascii c in
  if ((48 <=? n) && (n <=? 57))%nat then Some (Z.of_nat (n - 48)) else None.

Fixpoint digits (acc : Z) (s : string) : option Z :=
  match s with
  | EmptyString => Some acc
  | String c s' =>
      match digit c with
      | Some d => digits (10 * acc + d) s'
      | None => None
      end
  end.

Definition unsigned_decimal (s : string) : option Z :=
  match s with
  | EmptyString => None
  | _ => digits 0 s
  end.

Definition from_decimal (s : string) : Result t :=
  match s with
  | String "-" s' =>
      match unsigned_decimal s' with
      | Some v => Ok (- v)
      | None => Throw "invalid BigNumber string"
      end
  | _ =>
      match unsigned_decimal s with
      | Some v => Ok v
      | None => Throw "invalid BigNumber string"
      end
  end.

End BigNumber.

(** ** JavaScript numbers that hold integers *)

Module Number.

(** An integer in the safe range, where every integer is a double. *)
Definition safe (x : Z) : Prop := Z.abs x <= BigNumber.MAX_SAFE_INTEGER.

(** The double nearest to an integer, ties to the even significand.  Up
    to 2^53 in magnitude every integer is a double; above, the doubles
    between 2^e and 2^(e+1) are the multiples of 2^(e-52).  (Sums stay far
    below 2^1024, where a double overflows.) *)
Definition round (x : Z) : Z :=
  let a := Z.abs x in
  if a <=? 2 ^ 53 then x
  else
    let ulp := 2 ^ (Z.log2 a - 52) in
    let q := a / ulp in
    let r := a mod ulp in
    let q' :=
      if 2 * r <? ulp then q
      else if ulp <? 2 * r then q + 1
      else if Z.even q then q else q + 1 in
    Z.sgn x * (q' * ulp).

(** [a + b] on two integer-valued doubles. *)
Definition add (a b : Z) : Z := round (a + b).

End Number.

Arguments Number.round : simpl never.
Arguments Number.add : simpl never.

(** Modelled from the spec: constants/bn is not among the sources.  The
    spec calls the value the guarded formulas fall back to "zero", and the
    constant is named accordingly. *)
Definition ZERO_BN : BigNumber.t := 0.

(** ** JavaScript primitives *)

(** Truthiness of a [number | null]: [null] and [0] are falsy. *)
Definition truthy (x : option Z) : bool :=
  match x with
  | None => false
  | Some n => negb (n =? 0)
  end.

(** Numeric coercion of a [number | null] in [+], [>=] and [<=]. *)
Definition ToNumber (x : option Z) : Z :=
  match x with
  | None => 0
  | Some n => n
  end.

(** [String.prototype.toLowerCase] on ASCII text (addresses, symbols): the
    letters A..Z are folded, every other character is kept.  The statements
    about identifiers are made for ASCII strings ([is_ascii]), where this is
    the JavaScript folding. *)
Definition toLowerCase_ascii (c : ascii) : ascii :=
  let n := nat_of_ascii c in
  if ((65 <=? n) && (n <=? 90))%nat then ascii_of_nat (n + 32) else c.

Fixpoint toLowerCase (s : string) : string :=
  match s with
  | EmptyString => EmptyString
  | String c s' => String (toLowerCase_ascii c) (toLowerCase s')
  end.

(** [Array.prototype.includes] on strings. *)
Definition includes (l : list string) (x : string) : bool :=
  existsb (fun e => String.eqb e x) l.

(** ** Deployments and contracts (constants/contracts) *)

(** The members of the [Deployment] enum that the sources name. *)
Inductive Deployment : Type := Local | Kovan | Mainnet.

Definition Deployment_eqb (a b : Deployment) : bool :=
  match a, b with
  | Local, Local | Kovan, Kovan | Mainnet, Mainnet => true
  | _, _ => false
  end.

Definition includes_Deployment (l : list Deployment) (x : Deployment) : bool :=
  existsb (fun e => Deployment_eqb e x) l.

Inductive LyraContractId : Type :=
| LyraStakingModuleProxy
| MultiDistributor
| OptionMarketWrapper
| TestFaucet.

(** ** Records of fetchLiquidityHistory.ts *)

Record Block : Type := { block_timestamp : Z }.

Record Market : Type := {
  market_address : string;
  market_block : Block
}.

Record SnapshotOptions : Type := {
  startTimestamp : option Z;
  endTimestamp : option Z
}.

(** Variables of the [marketTotalValueSnapshots] query. *)
Record SnapshotVariables : Type := {
  var_market : string;
  var_startTimestamp : Z;
  var_endTimestamp : Z;
  var_period : Z
}.

(** Modelled from the spec: constants/queries is not among the sources; a
    snapshot is a record "fetched from the indexer", keyed by timestamp,
    whose amounts arrive as strings that [BigNumber.from] decodes.  Only the
    fields that [fetchLiquidityHistory] reads are listed. *)
Record MarketTotalValueSnapshotQueryResult : Type := {
  snap_timestamp : Z;
  snap_freeLiquidity : string;
  snap_burnableLiquidity : string;
  snap_NAV : string;
  snap_usedCollatLiquidity : string;
  snap_pendingDeltaLiquidity : string;
  snap_usedDeltaLiquidity : string;
  snap_tokenPrice : string;
  snap_pendingDeposits : string;
  snap_pendingWithdrawals : string
}.

Record MarketLiquidityHistory : Type := {
  freeLiquidity : BigNumber.t;
  burnableLiquidity : BigNumber.t;
  totalQueuedDeposits : BigNumber.t;
  nav : BigNumber.t;
  utilization : Q;
  totalWithdrawingDeposits : BigNumber.t;
  usedCollatLiquidity : BigNumber.t;
  pendingDeltaLiquidity : BigNumber.t;
  usedDeltaLiquidity : BigNumber.t;
  tokenPrice : BigNumber.t;
  timestamp : Z;
  pendingDeposits : BigNumber.t;
  pendingWithdrawals : BigNumber.t
}.

(** ** Records of the account module *)

Record AccountStableBalance : Type := {
  stable_address : string;
  stable_symbol : string;
  stable_decimals : Z;
  stable_balance : BigNumber.t;
  stable_allowance : BigNumber.t
}.

Record AccountBaseBalance : Type := {
  base_marketAddress : string;
  base_address : string;
  base_symbol : string;
  base_decimals : Z;
  base_balance : BigNumber.t;
  base_allowance : BigNumber.t
}.

Record AccountOptionTokenBalance : Type := {
  optionToken_marketAddress : string;
  optionToken_address : string;
  optionToken_isApprovedForAll : bool
}.

(** Result of [getAccountBalancesAndAllowances]. *)
Record AccountBalancesAndAllowances : Type := {
  fetched_stables : list AccountStableBalance;
  fetched_bases : list AccountBaseBalance;
  fetched_optionTokens : list AccountOptionTokenBalance
}.

Record AccountBalances : Type := {
  stables : list AccountStableBalance;
  stable : string -> Result AccountStableBalance;
  bases : list AccountBaseBalance;
  base : string -> Result AccountBaseBalance;
  optionTokens : list AccountOptionTokenBalance;
  optionToken : string -> Result AccountOptionTokenBalance
}.

(** Fields of the liquidity token balance that [liquidityUnrealizedPnl]
    destructures. *)
Record AccountLiquidityTokenBalance : Type := {
  lp_balance : BigNumber.t;
  lp_value : BigNumber.t;
  lp_tokenPrice : BigNumber.t
}.

Record UnrealizedPnl : Type := {
  pnl : BigNumber.t;
  pnlPercent : BigNumber.t
}.

(** The two protocol-level durations of [LyraStaking] read by the account. *)
Record LyraStaking : Type := {
  cooldownPeriod : Z;
  unstakeWindow : Z
}.

Record AccountLyraBalance : Type := {
  lyra_balance : BigNumber.t;
  stakingAllowance : BigNumber.t
}.

Record AccountStakedLyraBalance : Type := {
  stakedLyra_balance : BigNumber.t
}.

Record AccountLyraStaking : Type := {
  staking : LyraStaking;
  lyraBalance : AccountLyraBalance;
  stakedLyraBalance : AccountStakedLyraBalance;
  isInUnstakeWindow : bool;
  isInCooldown : bool;
  unstakeWindowStartTimestamp : option Z;
  unstakeWindowEndTimestamp : option Z
}.

Section SDK.

Set Default Proof Using "Type".

(** ** External collaborators

    Code of the SDK and of its libraries that is not among the sources:
    the facade object, the indexer client, the contract helpers and the
    fixed-point constants. *)

Variable Lyra : Type.
Variable Provider : Type.
Variable provider : Lyra -> Provider.
Variable deployment : Lyra -> Deployment.

(** constants/bn: the fixed-point unit and the fixed-point one. *)
Variable UNIT : BigNumber.t.
Variable ONE_BN : BigNumber.t.

(** [BigNumber.from] on the string an indexer field holds; it throws on
    a malformed string. *)
Variable BigNumber_from : string -> Result BigNumber.t.

(** utils/fromBigNumber: fixed-point integer to floating point. *)
Variable fromBigNumber : BigNumber.t -> Q.

Variable getSnapshotPeriod : Z -> Z -> Z.

(** utils/fetchSnapshots, at the [marketTotalValueSnapshots] query. *)
Variable fetchSnapshots :
  Lyra -> string -> SnapshotVariables -> list MarketTotalValueSnapshotQueryResult.

Variable LiquidityDeposit : Type.
Variable LiquidityWithdrawal : Type.
Variable getAverageCostPerLPToken :
  list LiquidityDeposit -> list LiquidityWithdrawal -> BigNumber.t.

Variable Contract : Type.
Variable PopulatedTransaction : Type.
Variable contract_address : Contract -> string.
Variable getLyraContract : Provider -> Deployment -> LyraContractId -> Contract.
Variable encodeFunctionData : Contract -> string -> string.

(** utils/buildTxWithGasEstimate; [None] is a falsy result. *)
Variable buildTxWithGasEstimate :
  Lyra -> string -> string -> string -> option PopulatedTransaction.

(** ** fetchLiquidityHistory *)

(** Line 62: the utilization of one snapshot. *)
Definition utilization_of (NAVBN freeLiquidityBN : BigNumber.t) : Result Q :=
  if BigNumber.gt NAVBN 0
  then
    q <- BigNumber.div
           (BigNumber.mul (BigNumber.sub NAVBN freeLiquidityBN) UNIT) NAVBN ;;
    Ok (fromBigNumber q)
  else Ok 0%Q.

(** The callback of [data.map]. *)
Definition marketLiquidity_of
    (marketTotalValueSnapshot : MarketTotalValueSnapshotQueryResult)
    : Result MarketLiquidityHistory :=
  freeLiquidityBN <- BigNumber_from (snap_freeLiquidity marketTotalValueSnapshot) ;;
  burnableLiquidityBN <- BigNumber_from (snap_burnableLiquidity marketTotalValueSnapshot) ;;
  NAVBN <- BigNumber_from (snap_NAV marketTotalValueSnapshot) ;;
  usedCollatLiquidityBN <- BigNumber_from (snap_usedCollatLiquidity marketTotalValueSnapshot) ;;
  pendingDeltaLiquidityBN <- BigNumber_from (snap_pendingDeltaLiquidity marketTotalValueSnapshot) ;;
  usedDeltaLiquidityBN <- BigNumber_from (snap_usedDeltaLiquidity marketTotalValueSnapshot) ;;
  tokenPriceBN <- BigNumber_from (snap_tokenPrice marketTotalValueSnapshot) ;;
  utilization_ <- utilization_of NAVBN freeLiquidityBN ;;
  pendingDeposits_ <- BigNumber_from (snap_pendingDeposits marketTotalValueSnapshot) ;;
  pendingWithdrawals_ <- BigNumber_from (snap_pendingWithdrawals marketTotalValueSnapshot) ;;
  Ok {|
    freeLiquidity := freeLiquidityBN;
    burnableLiquidity := burnableLiquidityBN;
    totalQueuedDeposits := ZERO_BN;
    nav := NAVBN;
    utilization := utilization_;
    totalWithdrawingDeposits := ZERO_BN;
    usedCollatLiquidity := usedCollatLiquidityBN;
    pendingDeltaLiquidity := pendingDeltaLiquidityBN;
    usedDeltaLiquidity := usedDeltaLiquidityBN;
    tokenPrice := tokenPriceBN;
    timestamp := snap_timestamp marketTotalValueSnapshot;
    pendingDeposits := pendingDeposits_;
    pendingWithdrawals := pendingWithdrawals_
  |}.

(** The snapshots the indexer answers with (lines 36-48). *)
Definition fetchLiquidityHistory_data
    (lyra : Lyra) (market : Market) (options : option SnapshotOptions)
    : list MarketTotalValueSnapshotQueryResult :=
  let startTimestamp_ :=
    match options with
    | Some o => match startTimestamp o with Some s => s | None => 0 end
    | None => 0
    end in
  let endTimestamp_ :=
    match options with
    | Some o =>
        match endTimestamp o with
        | Some e => e
        | None => block_timestamp (market_block market)
        end
    | None => block_timestamp (market_block market)
    end in
  fetchSnapshots lyra "marketTotalValueSnapshots" {|
    var_market := toLowerCase (market_address market);
    var_startTimestamp := startTimestamp_;
    var_endTimestamp := endTimestamp_;
    var_period := getSnapshotPeriod startTimestamp_ endTimestamp_
  |}.

Definition fetchLiquidityHistory
    (lyra : Lyra) (market : Market) (options : option SnapshotOptions)
    : Result (list MarketLiquidityHistory) :=
  let data := fetchLiquidityHistory_data lyra market options in
  let marketLiquidity := mapM marketLiquidity_of data in
  marketLiquidity.

(** ** Account *)

(** [balances], applied to the resolved result of
    [getAccountBalancesAndAllowances]. *)
Definition balances (fetched : AccountBalancesAndAllowances) : AccountBalances :=
  let stables_ := fetched_stables fetched in
  let bases_ := fetched_bases fetched in
  let optionTokens_ := fetched_optionTokens fetched in
  let stable_ := fun tokenAddressOrName : string =>
    match
      find (fun stable =>
              String.eqb (toLowerCase (stable_address stable))
                         (toLowerCase tokenAddressOrName)
              || String.eqb (toLowerCase (stable_symbol stable))
                            (toLowerCase tokenAddressOrName))
           stables_
    with
    | None => Throw "Stable token does not exist"
    | Some stable => Ok stable
    end in
  let base_ := fun tokenOrMarketAddressOrName : string =>
    match
      find (fun base =>
              includes [toLowerCase (base_marketAddress base);
                        toLowerCase (base_address base)]
                       (toLowerCase tokenOrMarketAddressOrName)
              || String.eqb (toLowerCase (base_symbol base))
                            (toLowerCase tokenOrMarketAddressOrName))
           bases_
    with
    | None => Throw "Base token does not exist"
    | Some base => Ok base
    end in
  let optionToken_ := fun tokenOrMarketAddress : string =>
    match
      find (fun optionToken =>
              includes [toLowerCase (optionToken_marketAddress optionToken);
                        toLowerCase (optionToken_address optionToken)]
                       (toLowerCase tokenOrMarketAddress))
           optionTokens_
    with
    | None => Throw "Option token does not exist"
    | Some optionToken => Ok optionToken
    end in
  {|
    stables := stables_;
    stable := stable_;
    bases := bases_;
    base := base_;
    optionTokens := optionTokens_;
    optionToken := optionToken_
  |}.

(** [liquidityUnrealizedPnl], applied to the three values its
    [Promise.all] resolves to. *)
Definition liquidityUnrealizedPnl
    (tokenBalance : AccountLiquidityTokenBalance)
    (liquidityDeposits : list LiquidityDeposit)
    (liquidityWithdrawals : list LiquidityWithdrawal)
    : Result UnrealizedPnl :=
  let balance := lp_balance tokenBalance in
  let value := lp_value tokenBalance in
  let tokenPrice_ := lp_tokenPrice tokenBalance in
  let avgCostPerToken := getAverageCostPerLPToken liquidityDeposits liquidityWithdrawals in
  avgValue <- BigNumber.div (BigNumber.mul avgCostPerToken balance) UNIT ;;
  let pnl_ := BigNumber.sub value avgValue in
  pnlPercent_ <-
    (if BigNumber.gt avgCostPerToken 0
     then
       q <- BigNumber.div (BigNumber.mul tokenPrice_ UNIT) avgCostPerToken ;;
       Ok (BigNumber.sub q ONE_BN)
     else Ok ZERO_BN) ;;
  Ok {| pnl := pnl_; pnlPercent := pnlPercent_ |}.

Definition drip (lyra : Lyra) (address : string) : Result PopulatedTransaction :=
  if negb (includes_Deployment [Kovan; Local] (deployment lyra))
  then Throw "Faucet is only supported on local and kovan contracts"
  else
    let faucet := getLyraContract (provider lyra) (deployment lyra) TestFaucet in
    let data := encodeFunctionData faucet "drip" in
    let tx := buildTxWithGasEstimate lyra (contract_address faucet) address data in
    match tx with
    | None => Throw "Failed to estimate gas for drip transaction"
    | Some tx => Ok tx
    end.

(** *** Staking windows

    The locals of [lyraStaking], as functions of the account cooldown
    (already a number) and the staking parameters. *)

Definition cooldownStartTimestamp (accountCooldown : Z) : option Z :=
  if 0 <? accountCooldown then Some accountCooldown else None.

Definition cooldownEndTimestamp (accountCooldown : Z) (staking_ : LyraStaking)
    : option Z :=
  if 0 <? accountCooldown
  then Some (Number.add accountCooldown (cooldownPeriod staking_))
  else None.

Definition unstakeWindowStart (accountCooldown : Z) (staking_ : LyraStaking)
    : option Z :=
  cooldownEndTimestamp accountCooldown staking_.

Definition unstakeWindowEnd (accountCooldown : Z) (staking_ : LyraStaking)
    : option Z :=
  let unstakeWindowStartTimestamp_ := unstakeWindowStart accountCooldown staking_ in
  if truthy unstakeWindowStartTimestamp_
  then Some (Number.add (ToNumber unstakeWindowStartTimestamp_)
                        (unstakeWindow staking_))
  else None.

(** [lyraStaking], applied to the five values its [Promise.all] resolves
    to. *)
Definition lyraStaking
    (block : Block)
    (lyraBalance_ : AccountLyraBalance)
    (stakedLyraBalance_ : AccountStakedLyraBalance)
    (staking_ : LyraStaking)
    (accountCooldownBN : BigNumber.t)
    : Result AccountLyraStaking :=
  accountCooldown <- BigNumber.toNumber accountCooldownBN ;;
  let cooldownStartTimestamp_ := cooldownStartTimestamp accountCooldown in
  let cooldownEndTimestamp_ := cooldownEndTimestamp accountCooldown staking_ in
  let unstakeWindowStartTimestamp_ := unstakeWindowStart accountCooldown staking_ in
  let unstakeWindowEndTimestamp_ := unstakeWindowEnd accountCooldown staking_ in
  let isInUnstakeWindow_ :=
    truthy unstakeWindowStartTimestamp_
    && truthy unstakeWindowEndTimestamp_
    && (ToNumber unstakeWindowStartTimestamp_ <=? block_timestamp block)
    && (block_timestamp block <=? ToNumber unstakeWindowEndTimestamp_) in
  let isInCooldown_ :=
    truthy cooldownStartTimestamp_
    && truthy cooldownEndTimestamp_
    && (ToNumber cooldownStartTimestamp_ <=? block_timestamp block)
    && (block_timestamp block <=? ToNumber cooldownEndTimestamp_) in
  Ok {|
    staking := staking_;
    lyraBalance := lyraBalance_;
    stakedLyraBalance := stakedLyraBalance_;
    isInUnstakeWindow := isInUnstakeWindow_;
    isInCooldown := isInCooldown_;
    unstakeWindowStartTimestamp := unstakeWindowStartTimestamp_;
    unstakeWindowEndTimestamp := unstakeWindowEndTimestamp_
  |}.

(** ** optionTradingVolume (command line)

    The entry point only talks to the outside world, so it is a program
    over the calls it makes; [run] executes it against the answers of a
    handler and records each call with its answer. *)

Variable OptionT : Type.
Variable OptionTradingVolume : Type.

Inductive YargsType : Type := yargs_string | yargs_number | yargs_boolean.

Record YargsOption : Type := {
  opt_name : string;
  opt_type : YargsType;
  opt_alias : string;
  opt_require : bool
}.

(** The parsed arguments: a required flag always has a value, an optional
    one may be [undefined]. *)
Record Args : Type := {
  arg_market : string;
  arg_strikeId : Z;
  arg_isCall : bool;
  arg_timestamp : option Z
}.

Inductive Call : Type -> Type :=
| getLyra : Call Lyra
| yargs (argv : list string) (options : list YargsOption) : Call Args
| lyra_option (lyra : Lyra) (market : string) (strikeId : Z) (isCall : bool)
    : Call OptionT
| tradingVolumeHistory (option_ : OptionT) (startTimestamp_ : option Z)
    : Call (list OptionTradingVolume)
| console_log (n : nat) : Call unit.

Inductive Prog (A : Type) : Type :=
| Ret (a : A)
| Vis (X : Type) (c : Call X) (k : X -> Prog A).

Arguments Ret {A} a.
Arguments Vis {A X} c k.

Notation "x <~ c ;; k" := (Vis c (fun x => k))
  (at level 61, c at next level, right associativity).

Definition Handler : Type := forall X : Type, Call X -> X.

Inductive Event : Type :=
| event (X : Type) (c : Call X) (answer : X).

Arguments event {X} c answer.

Fixpoint run {A : Type} (h : Handler) (p : Prog A) : list Event * A :=
  match p with
  | Ret a => ([], a)
  | Vis c k =>
      let x := h _ c in
      let (trace, a) := run h (k x) in
      (event c x :: trace, a)
  end.

(** What a run printed with [console.log]. *)
Definition printed (e : Event) : list nat :=
  match e with
  | event (console_log n) _ => [n]
  | event _ _ => []
  end.

Definition console (trace : list Event) : list nat := flat_map printed trace.

Definition optionTradingVolume_options : list YargsOption :=
  [ {| opt_name := "market"; opt_type := yargs_string;
       opt_alias := "m"; opt_require := true |};
    {| opt_name := "strikeId"; opt_type := yargs_number;
       opt_alias := "s"; opt_require := true |};
    {| opt_name := "isCall"; opt_type := yargs_boolean;
       opt_alias := "i"; opt_require := true |};
    {| opt_name := "timestamp"; opt_type := yargs_number;
       opt_alias := "t"; opt_require := false |} ].

Definition optionTradingVolume (argv : list string) : Prog unit :=
  lyra <~ getLyra ;;
  args <~ yargs argv optionTradingVolume_options ;;
  option_ <~ lyra_option lyra (arg_market args) (arg_strikeId args) (arg_isCall args) ;;
  optionVolumes <~ tradingVolumeHistory option_ (arg_timestamp args) ;;
  _ <~ console_log (List.length optionVolumes) ;;
  Ret tt.

(** ** Vocabulary of the statements *)

(** Two identifiers are the same up to letter case. *)
Definition same_ignoring_case (a b : string) : Prop :=
  toLowerCase a = toLowerCase b.

Definition stable_matches (query : string) (s : AccountStableBalance) : Prop :=
  same_ignoring_case (stable_address s) query
  \/ same_ignoring_case (stable_symbol s) query.

Definition base_matches (query : string) (b : AccountBaseBalance) : Prop :=
  same_ignoring_case (base_marketAddress b) query
  \/ same_ignoring_case (base_address b) query
  \/ same_ignoring_case (base_symbol b) query.

Definition optionToken_matches (query : string) (o : AccountOptionTokenBalance)
    : Prop :=
  same_ignoring_case (optionToken_marketAddress o) query
  \/ same_ignoring_case (optionToken_address o) query.

(** [x] is the first element of [l] that satisfies [P]. *)
Definition first_match {A : Type} (P : A -> Prop) (l : list A) (x : A) : Prop :=
  exists before after,
    l = (before ++ x :: after)%list /\ P x /\ Forall (fun y => ~ P y) before.

(** Every amount of a snapshot is a string that [BigNumber.from] accepts. *)
Definition decodes (s : string) : Prop :=
  exists v, BigNumber_from s = Ok v.

Definition snapshot_decodes (snap : MarketTotalValueSnapshotQueryResult) : Prop :=
  decodes (snap_freeLiquidity snap)
  /\ decodes (snap_burnableLiquidity snap)
  /\ decodes (snap_NAV snap)
  /\ decodes (snap_usedCollatLiquidity snap)
  /\ decodes (snap_pendingDeltaLiquidity snap)
  /\ decodes (snap_usedDeltaLiquidity snap)
  /\ decodes (snap_tokenPrice snap)
  /\ decodes (snap_pendingDeposits snap)
  /\ decodes (snap_pendingWithdrawals snap).

(** An output record carries the decoded amounts of a snapshot. *)
Definition carries (snap : MarketTotalValueSnapshotQueryResult)
    (rec : MarketLiquidityHistory) : Prop :=
  timestamp rec = snap_timestamp snap
  /\ BigNumber_from (snap_freeLiquidity snap) = Ok (freeLiquidity rec)
  /\ BigNumber_from (snap_burnableLiquidity snap) = Ok (burnableLiquidity rec)
  /\ BigNumber_from (snap_NAV snap) = Ok (nav rec)
  /\ BigNumber_from (snap_usedCollatLiquidity snap) = Ok (usedCollatLiquidity rec)
  /\ BigNumber_from (snap_pendingDeltaLiquidity snap) = Ok (pendingDeltaLiquidity rec)
  /\ BigNumber_from (snap_usedDeltaLiquidity snap) = Ok (usedDeltaLiquidity rec)
  /\ BigNumber_from (snap_tokenPrice snap) = Ok (tokenPrice rec)
  /\ BigNumber_from (snap_pendingDeposits snap) = Ok (pendingDeposits rec)
  /\ BigNumber_from (snap_pendingWithdrawals snap) = Ok (pendingWithdrawals rec).

(** *** Letter case, character by character

    What "the same up to letter case" means, said without the folding
    the program uses: two strings of equal length whose characters are
    pairwise equal or the upper- and lower-case form of one ASCII letter
    (codes 65..90 and the code plus 32). *)

Definition same_letter (a b : ascii) : Prop :=
  let x := nat_of_ascii a in
  let y := nat_of_ascii b in
  (x = y \/ (65 <= x <= 90 /\ y = x + 32) \/ (65 <= y <= 90 /\ x = y + 32))%nat.

Inductive equal_up_to_case : string -> string -> Prop :=
| equal_up_to_case_empty : equal_up_to_case EmptyString EmptyString
| equal_up_to_case_letter (a b : ascii) (s s' : string) :
    same_letter a b ->
    equal_up_to_case s s' ->
    equal_up_to_case (String a s) (String b s').

(** Identifiers are ASCII text, where [toLowerCase] is the folding of
    [String.prototype.toLowerCase]. *)
Fixpoint is_ascii (s : string) : bool :=
  match s with
  | EmptyString => true
  | String c s' => (nat_of_ascii c <? 128)%nat && is_ascii s'
  end.

(** The identifiers a token of each kind can be looked up by. *)
Definition stable_identifiers (s : AccountStableBalance) : list string :=
  [stable_address s; stable_symbol s].

Definition base_identifiers (b : AccountBaseBalance) : list string :=
  [base_marketAddress b; base_address b; base_symbol b].

Definition optionToken_identifiers (o : AccountOptionTokenBalance) : list string :=
  [optionToken_marketAddress o; optionToken_address o].

Definition answers_to (query : string) (identifiers : list string) : Prop :=
  Exists (fun identifier => equal_up_to_case identifier query) identifiers.

Definition ascii_identifiers (fetched : AccountBalancesAndAllowances) : bool :=
  forallb (fun s => forallb is_ascii (stable_identifiers s)) (fetched_stables fetched)
  && forallb (fun b => forallb is_ascii (base_identifiers b)) (fetched_bases fetched)
  && forallb (fun o => forallb is_ascii (optionToken_identifiers o))
             (fetched_optionTokens fetched).

(** The amounts of a snapshot, in the order the callback decodes them. *)
Definition snapshot_amounts (snap : MarketTotalValueSnapshotQueryResult)
    : list string :=
  [ snap_freeLiquidity snap;
    snap_burnableLiquidity snap;
    snap_NAV snap;
    snap_usedCollatLiquidity snap;
    snap_pendingDeltaLiquidity snap;
    snap_usedDeltaLiquidity snap;
    snap_tokenPrice snap;
    snap_pendingDeposits snap;
    snap_pendingWithdrawals snap ].

(** ** The rest of the account module

    Token balances, claimable rewards and the two ERC20 approvals.  The
    token addresses are constants of constants/contracts; a contract read
    is the value it resolves to. *)

Variable LYRA_OPTIMISM_KOVAN_ADDRESS : string.
Variable LYRA_OPTIMISM_MAINNET_ADDRESS : string.
Variable OP_OPTIMISM_MAINNET_ADDRESS : string.
Variable STAKED_LYRA_OPTIMISM_ADDRESS : string.
Variable STAKED_LYRA_OPTIMISM_KOVAN_ADDRESS : string.

(** ethers [getAddress]: the checksummed form, or an exception. *)
Variable getAddress : string -> Result string.

Variable getERC20Contract : Provider -> string -> Contract.
Variable getLyraContractAddress : Deployment -> LyraContractId -> string.
Variable balanceOf : Contract -> string -> BigNumber.t.
Variable allowance : Contract -> string -> string -> BigNumber.t.

(** [claimableBalances] of the distributor; [None] is a nullish answer. *)
Variable claimableBalances : Contract -> string -> string -> option BigNumber.t.

(** An argument of an encoded contract call. *)
Inductive Argument : Type :=
| arg_address (a : string)
| arg_amount (n : BigNumber.t).

(** [interface.encodeFunctionData] with arguments; it throws on a value
    the ABI type cannot hold (an amount outside uint256). *)
Variable encodeFunctionData_with :
  Contract -> string -> list Argument -> Result string.

Record ClaimableBalance : Type := {
  claimable_op : BigNumber.t;
  claimable_lyra : BigNumber.t
}.

(** The [??] operator on a nullable BigNumber. *)
Definition nullish_or (x : option BigNumber.t) (default : BigNumber.t) : BigNumber.t :=
  match x with
  | Some v => v
  | None => default
  end.

(** The methods [lyraBalance] and [stakedLyraBalance] of the class; the
    bare names are fields of [AccountLyraStaking]. *)
Definition Account_lyraBalance (lyra : Lyra) (address : string) : AccountLyraBalance :=
  let lyraTokenContract :=
    getERC20Contract (provider lyra)
      (if Deployment_eqb (deployment lyra) Mainnet
       then LYRA_OPTIMISM_MAINNET_ADDRESS
       else LYRA_OPTIMISM_KOVAN_ADDRESS) in
  let lyraStakingModuleProxyAddress :=
    getLyraContractAddress (deployment lyra) LyraStakingModuleProxy in
  {| lyra_balance := balanceOf lyraTokenContract address;
     stakingAllowance :=
       allowance lyraTokenContract address lyraStakingModuleProxyAddress |}.

Definition Account_stakedLyraBalance (lyra : Lyra) (address : string)
    : AccountStakedLyraBalance :=
  let stakedLyraContract :=
    getERC20Contract (provider lyra)
      (if Deployment_eqb (deployment lyra) Mainnet
       then STAKED_LYRA_OPTIMISM_ADDRESS
       else STAKED_LYRA_OPTIMISM_KOVAN_ADDRESS) in
  {| stakedLyra_balance := balanceOf stakedLyraContract address |}.

Definition claimableRewards (lyra : Lyra) (address : string)
    : Result ClaimableBalance :=
  let distributorContract :=
    getLyraContract (provider lyra) (deployment lyra) MultiDistributor in
  stkLyraAddress <-
    getAddress (if Deployment_eqb (deployment lyra) Mainnet
                then STAKED_LYRA_OPTIMISM_ADDRESS
                else STAKED_LYRA_OPTIMISM_KOVAN_ADDRESS) ;;
  let opAddress :=
    if Deployment_eqb (deployment lyra) Mainnet
    then OP_OPTIMISM_MAINNET_ADDRESS
    else LYRA_OPTIMISM_KOVAN_ADDRESS in
  let stkLyraClaimableBalance :=
    claimableBalances distributorContract address stkLyraAddress in
  let opClaimableBalance :=
    claimableBalances distributorContract address opAddress in
  Ok {| claimable_lyra := nullish_or stkLyraClaimableBalance ZERO_BN;
        claimable_op := nullish_or opClaimableBalance ZERO_BN |}.

(** [approveStableToken], applied to the resolved balances of the account.
    The transaction is returned as built, also when it is [null]. *)
Definition approveStableToken
    (lyra : Lyra) (address : string) (fetched : AccountBalancesAndAllowances)
    (tokenAddressOrName : string) (amount : BigNumber.t)
    : Result (option PopulatedTransaction) :=
  let balances_ := balances fetched in
  stable_ <- stable balances_ tokenAddressOrName ;;
  let wrapper :=
    getLyraContract (provider lyra) (deployment lyra) OptionMarketWrapper in
  let erc20 := getERC20Contract (provider lyra) (stable_address stable_) in
  data <-
    encodeFunctionData_with erc20 "approve"
      [arg_address (contract_address wrapper); arg_amount amount] ;;
  let tx := buildTxWithGasEstimate lyra (contract_address erc20) address data in
  Ok tx.

Definition approveBaseToken
    (lyra : Lyra) (address : string) (fetched : AccountBalancesAndAllowances)
    (tokenOrMarketAddressOrName : string) (amount : BigNumber.t)
    : Result (option PopulatedTransaction) :=
  let balances_ := balances fetched in
  stable_ <- base balances_ tokenOrMarketAddressOrName ;;
  let wrapper :=
    getLyraContract (provider lyra) (deployment lyra) OptionMarketWrapper in
  let erc20 := getERC20Contract (provider lyra) (base_address stable_) in
  data <-
    encodeFunctionData_with erc20 "approve"
      [arg_address (contract_address wrapper); arg_amount amount] ;;
  let tx := buildTxWithGasEstimate lyra (contract_address erc20) address data in
  Ok tx.

(** ** Sample data

    A small world on which the definitions run: two snapshots as the
    indexer would send them, three token lists and the staking parameters
    of a deployment (a ten-day cooldown, a two-day unstake window). *)

Definition sample_snapshots : list MarketTotalValueSnapshotQueryResult :=
  [ {| snap_timestamp := 1660000000;
       snap_freeLiquidity := "250000000000000000000";
       snap_burnableLiquidity := "200000000000000000000";
       snap_NAV := "1000000000000000000000";
       snap_usedCollatLiquidity := "600000000000000000000";
       snap_pendingDeltaLiquidity := "50000000000000000000";
       snap_usedDeltaLiquidity := "100000000000000000000";
       snap_tokenPrice := "1020000000000000000";
       snap_pendingDeposits := "0";
       snap_pendingWithdrawals := "7000000000000000000" |};
    {| snap_timestamp := 1660003600;
       snap_freeLiquidity := "0";
       snap_burnableLiquidity := "0";
       snap_NAV := "0";
       snap_usedCollatLiquidity := "0";
       snap_pendingDeltaLiquidity := "0";
       snap_usedDeltaLiquidity := "0";
       snap_tokenPrice := "1000000000000000000";
       snap_pendingDeposits := "0";
       snap_pendingWithdrawals := "0" |} ].

Definition sample_fetchSnapshots
    (_ : Deployment) (_ : string) (_ : SnapshotVariables)
    : list MarketTotalValueSnapshotQueryResult :=
  sample_snapshots.

Definition sample_UNIT : BigNumber.t := 10 ^ 18.

(** The exact quotient by [sample_UNIT]; the rounding to a double is left
    out. *)
Definition sample_fromBigNumber (x : BigNumber.t) : Q :=
  Qmake x 1000000000000000000.

Definition sample_getSnapshotPeriod (_ _ : Z) : Z := 3600.

Definition sample_market : Market :=
  {| market_address := "0x1d42a98848e022908069c2c545aE44Cc78509Bc8";
     market_block := {| block_timestamp := 1660007200 |} |}.

Definition sample_balances : AccountBalancesAndAllowances :=
  {| fetched_stables :=
       [ {| stable_address := "0x57Ab1ec28D129707052df4dF418D58a2D46d5f51";
            stable_symbol := "sUSD";
            stable_decimals := 18;
            stable_balance := 5;
            stable_allowance := 0 |} ];
     fetched_bases :=
       [ {| base_marketAddress := "0x1d42a98848e022908069c2c545aE44Cc78509Bc8";
            base_address := "0xE405de8F52ba7559f9df3C368500B6E6ae6Cee49";
            base_symbol := "sETH";
            base_decimals := 18;
            base_balance := 2;
            base_allowance := 0 |} ];
     fetched_optionTokens :=
       [ {| optionToken_marketAddress := "0x1d42a98848e022908069c2c545aE44Cc78509Bc8";
            optionToken_address := "0xCfDfF4E171133D55dE2e45c66a0E144a135D93f2";
            optionToken_isApprovedForAll := true |} ] |}.

Definition sample_staking : LyraStaking :=
  {| cooldownPeriod := 864000; unstakeWindow := 172800 |}.

Definition sample_lyraBalance : AccountLyraBalance :=
  {| lyra_balance := 40; stakingAllowance := 0 |}.

Definition sample_stakedLyraBalance : AccountStakedLyraBalance :=
  {| stakedLyra_balance := 60 |}.

(** A liquidity position: deposits and withdrawals are amounts paid, and
    the average cost is their difference (a stand-in for
    [getAverageCostPerLPToken]). *)
Definition sample_getAverageCostPerLPToken (deposits withdrawals : list Z) : BigNumber.t :=
  fold_right Z.add 0 deposits - fold_right Z.add 0 withdrawals.

Definition sample_tokenBalance : AccountLiquidityTokenBalance :=
  {| lp_balance := 3000000000000000000;
     lp_value := 3060000000000000000;
     lp_tokenPrice := 1020000000000000000 |}.

(** A faucet that always builds its transaction, named by its calldata. *)
Definition sample_buildTxWithGasEstimate
    (_ : Deployment) (to from data : string) : option string :=
  Some data.

(** What [fetchLiquidityHistory] answers on [sample_snapshots]. *)
Definition sample_record_1 : MarketLiquidityHistory :=
    {| freeLiquidity := 250000000000000000000;
       burnableLiquidity := 200000000000000000000;
       totalQueuedDeposits := 0;
       nav := 1000000000000000000000;
       utilization := sample_fromBigNumber 750000000000000000;
       totalWithdrawingDeposits := 0;
       usedCollatLiquidity := 600000000000000000000;
       pendingDeltaLiquidity := 50000000000000000000;
       usedDeltaLiquidity := 100000000000000000000;
       tokenPrice := 1020000000000000000;
       timestamp := 1660000000;
       pendingDeposits := 0;
       pendingWithdrawals := 7000000000000000000 |}.

Definition sample_record_2 : MarketLiquidityHistory :=
    {| freeLiquidity := 0;
       burnableLiquidity := 0;
       totalQueuedDeposits := 0;
       nav := 0;
       utilization := 0%Q;
       totalWithdrawingDeposits := 0;
       usedCollatLiquidity := 0;
       pendingDeltaLiquidity := 0;
       usedDeltaLiquidity := 0;
       tokenPrice := 1000000000000000000;
       timestamp := 1660003600;
       pendingDeposits := 0;
       pendingWithdrawals := 0 |}.

Definition sample_history : list MarketLiquidityHistory :=
  [sample_record_1; sample_record_2].

(** The staking view of an account whose cooldown started at 1660000000,
    at the block where the cooldown ends. *)
Definition sample_accountLyraStaking : AccountLyraStaking :=
  {| staking := sample_staking;
     lyraBalance := sample_lyraBalance;
     stakedLyraBalance := sample_stakedLyraBalance;
     isInUnstakeWindow := true;
     isInCooldown := true;
     unstakeWindowStartTimestamp := Some 1660864000;
     unstakeWindowEndTimestamp := Some 1661036800 |}.

(** An indexer answer whose second snapshot has a malformed NAV. *)
Definition sample_malformed_snapshot : MarketTotalValueSnapshotQueryResult :=
  {| snap_timestamp := 1660003600;
     snap_freeLiquidity := "1";
     snap_burnableLiquidity := "0";
     snap_NAV := "1e21";
     snap_usedCollatLiquidity := "0";
     snap_pendingDeltaLiquidity := "0";
     snap_usedDeltaLiquidity := "0";
     snap_tokenPrice := "1000000000000000000";
     snap_pendingDeposits := "0";
     snap_pendingWithdrawals := "0" |}.

Definition sample_fetchMalformed
    (_ : Deployment) (_ : string) (_ : SnapshotVariables)
    : list MarketTotalValueSnapshotQueryResult :=
  [hd sample_malformed_snapshot sample_snapshots; sample_malformed_snapshot].

(** A facade that is its deployment, contracts that are their addresses,
    and a chain with two balances and one claimable reward. *)
Definition sample_provider (_ : Deployment) : unit := tt.
Definition sample_deployment (d : Deployment) : Deployment := d.
Definition sample_contract_address (c : string) : string := c.

Definition sample_getLyraContract (_ : unit) (_ : Deployment) (id : LyraContractId)
    : string :=
  match id with
  | LyraStakingModuleProxy => "0xStaking"
  | MultiDistributor => "0xDistributor"
  | OptionMarketWrapper => "0xWrapper"
  | TestFaucet => "0xFaucet"
  end.

Definition sample_getERC20Contract (_ : unit) (a : string) : string := a.

Definition sample_encodeFunctionData (_ : string) (name : string) : string := name.

Definition sample_encodeFunctionData_with
    (_ : string) (name : string) (arguments : list Argument) : Result string :=
  if forallb (fun a => match a with
                       | arg_address _ => true
                       | arg_amount n => (0 <=? n) && (n <? 2 ^ 256)
                       end) arguments
  then Ok name
  else Throw "value out-of-bounds".

Definition sample_getLyraContractAddress (_ : Deployment) (_ : LyraContractId)
    : string :=
  "0xStaking".

Definition sample_getAddress (a : string) : Result string := Ok a.

Definition sample_balanceOf (token : string) (_ : string) : BigNumber.t :=
  if String.eqb token "0xLyraKovan" then 40 else 60.

Definition sample_allowance (_ _ _ : string) : BigNumber.t := 0.

Definition sample_claimableBalances (_ : string) (_ : string) (token : string)
    : option BigNumber.t :=
  if String.eqb token "0xLyraKovan" then Some 7 else None.

(** * Properties *)

(** ** Exceptions and traversals *)

Lemma bind_Ok_inv {A B : Type} (r : Result A) (k : A -> Result B) (b : B) :
  bind r k = Ok b -> exists a, r = Ok a /\ k a = Ok b.
Proof.
  destruct r as [a | m]; simpl; intros H.
  - exists a. split; [reflexivity | exact H].
  - discriminate H.
Qed.

Lemma mapM_Forall2 {A B : Type} (f : A -> Result B) (l : list A) :
  forall out, mapM f l = Ok out -> Forall2 (fun a b => f a = Ok b) l out.
Proof.
  induction l as [| a l IH]; simpl; intros out H.
  - injection H as <-. constructor.
  - apply bind_Ok_inv in H. destruct H as [b [Hb H]].
    apply bind_Ok_inv in H. destruct H as [bs [Hbs H]].
    injection H as <-. constructor; [exact Hb | apply IH; exact Hbs].
Qed.

Lemma mapM_returns {A B : Type} (f : A -> Result B) (l : list A) :
  Forall (fun a => exists b, f a = Ok b) l -> exists out, mapM f l = Ok out.
Proof.
  induction 1 as [| a l [b Hb] _ [bs Hbs]]; simpl.
  - exists []. reflexivity.
  - exists (b :: bs). rewrite Hb. simpl. rewrite Hbs. reflexivity.
Qed.

(** ** Staking windows *)

Lemma toNumber_safe (a : BigNumber.t) :
  Z.abs a <= BigNumber.MAX_SAFE_INTEGER -> BigNumber.toNumber a = Ok a.
Proof.
  intros H. unfold BigNumber.toNumber.
  destruct (Z.leb_spec (Z.abs a) BigNumber.MAX_SAFE_INTEGER); [reflexivity | lia].
Qed.

Lemma toNumber_Ok_inv (a n : Z) : BigNumber.toNumber a = Ok n -> n = a.
Proof.
  unfold BigNumber.toNumber.
  destruct (Z.abs a <=? BigNumber.MAX_SAFE_INTEGER); intros H;
    [injection H as <-; reflexivity | discriminate H].
Qed.

Lemma Number_round_exact (x : Z) : Z.abs x <= 2 ^ 53 -> Number.round x = x.
Proof.
  intros H. unfold Number.round.
  destruct (Z.leb_spec (Z.abs x) (2 ^ 53)); [reflexivity | lia].
Qed.

Lemma Number_add_exact (a b : Z) :
  Number.safe (a + b) -> Number.add a b = a + b.
Proof.
  unfold Number.safe, BigNumber.MAX_SAFE_INTEGER, Number.add. intros H.
  apply Number_round_exact. lia.
Qed.

Lemma Number_round_pos (x : Z) : 0 < x -> 0 < Number.round x.
Proof.
  intros Hx. unfold Number.round.
  destruct (Z.leb_spec (Z.abs x) (2 ^ 53)) as [_ | Hbig]; [exact Hx |].
  rewrite Z.abs_eq in * by lia. rewrite Z.sgn_pos by exact Hx.
  set (k := Z.log2 x - 52).
  assert (Hlog : 53 <= Z.log2 x).
  { apply Z.log2_le_pow2; [exact Hx | lia]. }
  assert (Hulp : 0 < 2 ^ k) by (apply Z.pow_pos_nonneg; lia).
  assert (Hle : 2 ^ k <= x).
  { destruct (Z.log2_spec x Hx) as [Hlow _].
    apply Z.le_trans with (2 ^ Z.log2 x); [| exact Hlow].
    apply Z.pow_le_mono_r; lia. }
  assert (Hq : 1 <= x / 2 ^ k).
  { apply Z.div_le_lower_bound; lia. }
  destruct (2 * (x mod 2 ^ k) <? 2 ^ k); [nia |].
  destruct (2 ^ k <? 2 * (x mod 2 ^ k)); [nia |].
  destruct (Z.even (x / 2 ^ k)); nia.
Qed.

Lemma Number_add_pos (a b : Z) : 0 < a -> 0 <= b -> 0 < Number.add a b.
Proof.
  intros Ha Hb. unfold Number.add. apply Number_round_pos. lia.
Qed.

(** The record [lyraStaking] returns, once the cooldown is a number. *)
Lemma lyraStaking_Ok_inv block lb slb staking_ accountCooldownBN r :
  lyraStaking block lb slb staking_ accountCooldownBN = Ok r ->
  let c := accountCooldownBN in
  let t := block_timestamp block in
  unstakeWindowStartTimestamp r = unstakeWindowStart c staking_
  /\ unstakeWindowEndTimestamp r = unstakeWindowEnd c staking_
  /\ isInUnstakeWindow r =
      (truthy (unstakeWindowStart c staking_)
       && truthy (unstakeWindowEnd c staking_)
       && (ToNumber (unstakeWindowStart c staking_) <=? t)
       && (t <=? ToNumber (unstakeWindowEnd c staking_)))%bool
  /\ isInCooldown r =
      (truthy (cooldownStartTimestamp c)
       && truthy (cooldownEndTimestamp c staking_)
       && (ToNumber (cooldownStartTimestamp c) <=? t)
       && (t <=? ToNumber (cooldownEndTimestamp c staking_)))%bool.
Proof.
  unfold lyraStaking. intros H.
  apply bind_Ok_inv in H. destruct H as [n [Hn H]].
  apply toNumber_Ok_inv in Hn. subst n.
  injection H as <-. simpl. repeat split; reflexivity.
Qed.

Ltac window_cases c :=
  unfold unstakeWindowEnd, unstakeWindowStart, cooldownEndTimestamp,
    cooldownStartTimestamp;
  destruct (Z.ltb_spec 0 c); simpl;
  repeat match goal with
  | |- context [?a =? ?b] => destruct (Z.eqb_spec a b); simpl
  | |- context [?a <=? ?b] => destruct (Z.leb_spec a b); simpl
  end.

(** C1: the two booleans returned by [lyraStaking] hold exactly when the
    block timestamp lies in the corresponding window, both endpoints
    included, and either of them requires a positive recorded cooldown.
    The windows are read off the timestamps the function computes and,
    equivalently, off the cooldown [c], the period [p] and the unstake
    window [w], added as the program adds them. *)
Theorem lyraStaking_booleans_are_inclusive_windows :
  forall (block : Block) (lb : AccountLyraBalance) (slb : AccountStakedLyraBalance)
         (staking_ : LyraStaking) (accountCooldownBN : BigNumber.t),
    let c := accountCooldownBN in
    let p := cooldownPeriod staking_ in
    let w := unstakeWindow staking_ in
    let t := block_timestamp block in
    0 <= p ->
    Number.safe c ->
    Number.safe p ->
    Number.safe w ->
    exists r,
      lyraStaking block lb slb staking_ accountCooldownBN = Ok r
      /\ (isInCooldown r = true <->
          exists s e, cooldownStartTimestamp c = Some s
                      /\ cooldownEndTimestamp c staking_ = Some e
                      /\ s <= t <= e)
      /\ (isInUnstakeWindow r = true <->
          exists s e, unstakeWindowStartTimestamp r = Some s
                      /\ unstakeWindowEndTimestamp r = Some e
                      /\ s <= t <= e)
      /\ (isInCooldown r = true <-> 0 < c /\ c <= t <= Number.add c p)
      /\ (isInUnstakeWindow r = true <->
          0 < c /\ Number.add c p <= t <= Number.add (Number.add c p) w).
Proof.
  intros block lb slb staking_ cBN c p w t Hp Hsafe _ _.
  destruct (lyraStaking block lb slb staking_ cBN) as [r | m] eqn:Hr.
  2: { unfold lyraStaking in Hr. rewrite (toNumber_safe cBN Hsafe) in Hr.
       discriminate Hr. }
  exists r. split; [reflexivity |].
  destruct (lyraStaking_Ok_inv _ _ _ _ _ _ Hr) as (Hs & He & Hu & Hc).
  rewrite Hs, He, Hu, Hc. clear Hr Hs He Hu Hc r.
  subst c p w t. clear Hsafe.
  assert (Hend : 0 < cBN -> 0 < Number.add cBN (cooldownPeriod staking_))
    by (intros Hpos; apply Number_add_pos; [exact Hpos | exact Hp]).
  split; [| split; [| split]]; split.
  - window_cases cBN; intros Hin; try discriminate Hin;
      do 2 eexists; repeat split; try reflexivity; lia.
  - intros (s & e & Hs & He & Ht). revert Hs He.
    window_cases cBN; intros Hs He; try discriminate;
      injection Hs as <-; injection He as <-; try reflexivity; lia.
  - window_cases cBN; intros Hin; try discriminate Hin;
      do 2 eexists; repeat split; try reflexivity; lia.
  - intros (s & e & Hs & He & Ht). revert Hs He.
    window_cases cBN; intros Hs He; try discriminate;
      injection Hs as <-; injection He as <-; try reflexivity; lia.
  - window_cases cBN; intros Hin; try discriminate Hin; lia.
  - intros [Hpos Ht]. window_cases cBN; try reflexivity; lia.
  - window_cases cBN; intros Hin; try discriminate Hin; lia.
  - intros [Hpos Ht]. window_cases cBN; try reflexivity; lia.
Qed.

(** C5: for a positive stored cooldown [c], [lyraStaking] derives the
    cooldown as [c .. c + p] and the unstake window as
    [c + p .. c + p + w], the sums being those of the program (doubles);
    the unstake window starts where the cooldown ends.  While the sums
    stay in the safe range they are the exact sums. *)
Theorem lyraStaking_derives_windows :
  forall (block : Block) (lb : AccountLyraBalance) (slb : AccountStakedLyraBalance)
         (staking_ : LyraStaking) (accountCooldownBN : BigNumber.t),
    let c := accountCooldownBN in
    let p := cooldownPeriod staking_ in
    let w := unstakeWindow staking_ in
    0 < c ->
    Number.safe c ->
    0 <= p ->
    Number.safe p ->
    Number.safe w ->
    exists r,
      lyraStaking block lb slb staking_ accountCooldownBN = Ok r
      /\ cooldownStartTimestamp c = Some c
      /\ cooldownEndTimestamp c staking_ = Some (Number.add c p)
      /\ unstakeWindowStartTimestamp r = Some (Number.add c p)
      /\ unstakeWindowEndTimestamp r = Some (Number.add (Number.add c p) w)
      /\ unstakeWindowStartTimestamp r = cooldownEndTimestamp c staking_
      /\ (Number.safe (c + p) ->
          cooldownEndTimestamp c staking_ = Some (c + p)
          /\ unstakeWindowStartTimestamp r = Some (c + p)
          /\ (Number.safe (c + p + w) ->
              unstakeWindowEndTimestamp r = Some (c + p + w))).
Proof.
  intros block lb slb staking_ cBN c p w Hc Hsafe Hp _ _. subst c p w.
  destruct (lyraStaking block lb slb staking_ cBN) as [r | m] eqn:Hr.
  2: { unfold lyraStaking in Hr. rewrite (toNumber_safe cBN Hsafe) in Hr.
       discriminate Hr. }
  exists r. split; [reflexivity |].
  destruct (lyraStaking_Ok_inv _ _ _ _ _ _ Hr) as (Hs & He & _ & _).
  rewrite Hs, He. clear Hr Hs He r.
  pose proof (Number_add_pos cBN (cooldownPeriod staking_) Hc Hp) as Hend.
  assert (Hwindows :
            cooldownStartTimestamp cBN = Some cBN
            /\ cooldownEndTimestamp cBN staking_
               = Some (Number.add cBN (cooldownPeriod staking_))
            /\ unstakeWindowStart cBN staking_
               = Some (Number.add cBN (cooldownPeriod staking_))
            /\ unstakeWindowEnd cBN staking_
               = Some (Number.add (Number.add cBN (cooldownPeriod staking_))
                                  (unstakeWindow staking_))).
  { repeat split; window_cases cBN; try reflexivity; lia. }
  destruct Hwindows as (H1 & H2 & H3 & H4).
  rewrite H1, H2, H3, H4.
  repeat split.
  - rewrite (Number_add_exact _ _ H). reflexivity.
  - rewrite (Number_add_exact _ _ H). reflexivity.
  - intros Hsum. rewrite (Number_add_exact _ _ H).
    rewrite (Number_add_exact _ _ Hsum). reflexivity.
Qed.

(** C8: an account that never entered cooldown (stored timestamp zero)
    has no unstake window and is in neither window, whatever the block
    timestamp is. *)
Theorem lyraStaking_without_cooldown :
  forall (block : Block) (lb : AccountLyraBalance) (slb : AccountStakedLyraBalance)
         (staking_ : LyraStaking),
    exists r,
      lyraStaking block lb slb staking_ 0 = Ok r
      /\ unstakeWindowStartTimestamp r = None
      /\ unstakeWindowEndTimestamp r = None
      /\ isInCooldown r = false
      /\ isInUnstakeWindow r = false.
Proof.
  intros block lb slb staking_. eexists. split; [reflexivity |].
  simpl. repeat split; reflexivity.
Qed.

(** C9: the two booleans of a [lyraStaking] result are both true only at
    the instant where the cooldown ends and the unstake window starts; at
    any other block timestamp at most one of them holds. *)
Theorem lyraStaking_windows_overlap_at_one_instant :
  forall (block : Block) (lb : AccountLyraBalance) (slb : AccountStakedLyraBalance)
         (staking_ : LyraStaking) (accountCooldownBN : BigNumber.t)
         (r : AccountLyraStaking),
    let t := block_timestamp block in
    lyraStaking block lb slb staking_ accountCooldownBN = Ok r ->
    (isInCooldown r = true -> isInUnstakeWindow r = true ->
       cooldownEndTimestamp accountCooldownBN staking_ = Some t
       /\ unstakeWindowStartTimestamp r = Some t)
    /\ (unstakeWindowStartTimestamp r <> Some t ->
        isInCooldown r && isInUnstakeWindow r = false).
Proof.
  intros block lb slb staking_ cBN r t Hr. subst t.
  destruct (lyraStaking_Ok_inv _ _ _ _ _ _ Hr) as (Hs & He & Hu & Hc).
  rewrite Hs, Hu, Hc. clear Hr Hs He Hu Hc r.
  split.
  - window_cases cBN; intros Hin Hun; try discriminate;
      split; f_equal; lia.
  - window_cases cBN; intros Hne; try reflexivity.
    exfalso. apply Hne. f_equal. lia.
Qed.

(** ** Liquidity history *)

Lemma Forall2_In_right {A B : Type} (R : A -> B -> Prop) (l : list A) (out : list B) :
  Forall2 R l out -> forall b, In b out -> exists a, In a l /\ R a b.
Proof.
  induction 1 as [| a b l out Hab _ IH]; intros x Hx.
  - destruct Hx.
  - destruct Hx as [<- | Hx].
    + exists a. split; [left; reflexivity | exact Hab].
    + destruct (IH x Hx) as [a' [Ha' HR]]. exists a'. split; [right |]; assumption.
Qed.

Lemma div_nonzero (a b : BigNumber.t) :
  b <> 0 -> BigNumber.div a b = Ok (Z.quot a b).
Proof.
  intros Hb. unfold BigNumber.div.
  destruct (Z.eqb_spec b 0); [contradiction | reflexivity].
Qed.

Lemma utilization_of_nonpositive (NAVBN freeLiquidityBN : BigNumber.t) :
  NAVBN <= 0 -> utilization_of NAVBN freeLiquidityBN = Ok 0%Q.
Proof.
  intros H. unfold utilization_of, BigNumber.gt.
  destruct (Z.ltb_spec 0 NAVBN); [lia | reflexivity].
Qed.

Lemma utilization_of_positive (NAVBN freeLiquidityBN : BigNumber.t) :
  0 < NAVBN ->
  utilization_of NAVBN freeLiquidityBN
  = Ok (fromBigNumber (Z.quot ((NAVBN - freeLiquidityBN) * UNIT) NAVBN)).
Proof.
  intros H. unfold utilization_of, BigNumber.gt.
  destruct (Z.ltb_spec 0 NAVBN); [| lia].
  rewrite div_nonzero by lia. reflexivity.
Qed.

Lemma utilization_of_returns (NAVBN freeLiquidityBN : BigNumber.t) :
  exists u, utilization_of NAVBN freeLiquidityBN = Ok u.
Proof.
  destruct (Z_lt_le_dec 0 NAVBN) as [Hpos | Hle].
  - eexists. apply utilization_of_positive. exact Hpos.
  - eexists. apply utilization_of_nonpositive. exact Hle.
Qed.

Ltac bind_inv H x Hx :=
  apply bind_Ok_inv in H; destruct H as [x [Hx H]].

(** What the callback returns, field by field. *)
Lemma marketLiquidity_of_Ok_inv snap rec :
  marketLiquidity_of snap = Ok rec ->
  carries snap rec
  /\ totalQueuedDeposits rec = ZERO_BN
  /\ totalWithdrawingDeposits rec = ZERO_BN
  /\ utilization_of (nav rec) (freeLiquidity rec) = Ok (utilization rec).
Proof.
  unfold marketLiquidity_of. intros H.
  bind_inv H v1 H1. bind_inv H v2 H2. bind_inv H v3 H3. bind_inv H v4 H4.
  bind_inv H v5 H5. bind_inv H v6 H6. bind_inv H v7 H7. bind_inv H u Hu.
  bind_inv H v8 H8. bind_inv H v9 H9.
  injection H as <-. unfold carries. simpl.
  repeat split; assumption.
Qed.

Lemma marketLiquidity_of_returns snap :
  snapshot_decodes snap -> exists rec, marketLiquidity_of snap = Ok rec.
Proof.
  intros ([v1 H1] & [v2 H2] & [v3 H3] & [v4 H4] & [v5 H5] & [v6 H6]
          & [v7 H7] & [v8 H8] & [v9 H9]).
  destruct (utilization_of_returns v3 v1) as [u Hu].
  unfold marketLiquidity_of.
  rewrite H1, H2, H3, H4, H5, H6, H7. simpl.
  rewrite Hu. simpl. rewrite H8, H9. simpl.
  eexists. reflexivity.
Qed.

Lemma fetchLiquidityHistory_Ok_inv lyra market options out :
  fetchLiquidityHistory lyra market options = Ok out ->
  Forall2 (fun snap rec => marketLiquidity_of snap = Ok rec)
          (fetchLiquidityHistory_data lyra market options) out.
Proof.
  unfold fetchLiquidityHistory. apply mapM_Forall2.
Qed.

(** ** Unrealized PnL *)

Lemma liquidityUnrealizedPnl_returns tokenBalance deposits withdrawals :
  UNIT <> 0 ->
  let avgCostPerToken := getAverageCostPerLPToken deposits withdrawals in
  liquidityUnrealizedPnl tokenBalance deposits withdrawals
  = Ok {|
      pnl := lp_value tokenBalance
             - Z.quot (avgCostPerToken * lp_balance tokenBalance) UNIT;
      pnlPercent :=
        if 0 <? avgCostPerToken
        then Z.quot (lp_tokenPrice tokenBalance * UNIT) avgCostPerToken - ONE_BN
        else ZERO_BN
    |}.
Proof.
  intros HU avg. unfold liquidityUnrealizedPnl. fold avg.
  rewrite div_nonzero by exact HU. simpl.
  unfold BigNumber.gt. destruct (Z.ltb_spec 0 avg); simpl.
  - rewrite div_nonzero by lia. reflexivity.
  - reflexivity.
Qed.

(** C2: both guarded divisions fall back to zero instead of dividing.  A
    record of [fetchLiquidityHistory] whose NAV is not positive has
    utilization 0, and the utilization never fails with a division error;
    [liquidityUnrealizedPnl] returns, and its [pnlPercent] is zero when the
    average cost per LP token is not positive.  [UNIT], the divisor of the
    unguarded division, is a non-zero constant. *)
Theorem division_by_zero_is_guarded :
  forall (lyra : Lyra) (market : Market) (options : option SnapshotOptions)
         (out : list MarketLiquidityHistory) (rec : MarketLiquidityHistory)
         (tokenBalance : AccountLiquidityTokenBalance)
         (deposits : list LiquidityDeposit) (withdrawals : list LiquidityWithdrawal),
    UNIT <> 0 ->
    (fetchLiquidityHistory lyra market options = Ok out ->
     In rec out ->
     utilization_of (nav rec) (freeLiquidity rec) = Ok (utilization rec)
     /\ (nav rec <= 0 -> utilization rec = 0%Q))
    /\ (forall NAVBN freeLiquidityBN,
          (exists u, utilization_of NAVBN freeLiquidityBN = Ok u)
          /\ (NAVBN <= 0 -> utilization_of NAVBN freeLiquidityBN = Ok 0%Q))
    /\ (exists r,
          liquidityUnrealizedPnl tokenBalance deposits withdrawals = Ok r
          /\ (getAverageCostPerLPToken deposits withdrawals <= 0 ->
              pnlPercent r = ZERO_BN)).
Proof.
  intros lyra market options out rec tokenBalance deposits withdrawals HU.
  split; [| split].
  - intros Hout Hin.
    apply fetchLiquidityHistory_Ok_inv in Hout.
    destruct (Forall2_In_right _ _ _ Hout rec Hin) as [snap [_ Hrec]].
    apply marketLiquidity_of_Ok_inv in Hrec.
    destruct Hrec as (_ & _ & _ & Hu).
    split; [exact Hu |].
    intros Hnav. rewrite utilization_of_nonpositive in Hu by exact Hnav.
    injection Hu as <-. reflexivity.
  - intros NAVBN freeLiquidityBN. split.
    + apply utilization_of_returns.
    + apply utilization_of_nonpositive.
  - eexists. split.
    + apply liquidityUnrealizedPnl_returns. exact HU.
    + simpl. intros Havg.
      destruct (Z.ltb_spec 0 (getAverageCostPerLPToken deposits withdrawals));
        [lia | reflexivity].
Qed.

(** C6: when every amount the indexer sent decodes, [fetchLiquidityHistory]
    returns one record per snapshot, in the order of the snapshots, and
    each record carries the timestamp and the decoded amounts of its
    snapshot. *)
Theorem fetchLiquidityHistory_one_record_per_snapshot :
  forall (lyra : Lyra) (market : Market) (options : option SnapshotOptions),
    let data := fetchLiquidityHistory_data lyra market options in
    Forall snapshot_decodes data ->
    exists out,
      fetchLiquidityHistory lyra market options = Ok out
      /\ List.length out = List.length data
      /\ Forall2 carries data out.
Proof.
  intros lyra market options data Hdec.
  destruct (mapM_returns marketLiquidity_of data) as [out Hout].
  { eapply Forall_impl; [| exact Hdec].
    intros snap. apply marketLiquidity_of_returns. }
  exists out. split; [exact Hout |].
  apply mapM_Forall2 in Hout.
  split.
  - symmetry. eapply Forall2_length. exact Hout.
  - eapply Forall2_impl; [| exact Hout].
    intros snap rec Hrec. apply marketLiquidity_of_Ok_inv in Hrec.
    destruct Hrec as [Hcarries _]. exact Hcarries.
Qed.

(** C10: every record [fetchLiquidityHistory] returns has
    [totalQueuedDeposits] and [totalWithdrawingDeposits] equal to the zero
    BigNumber, whatever the indexer answered. *)
Theorem fetchLiquidityHistory_queued_and_withdrawing_are_zero :
  forall (lyra : Lyra) (market : Market) (options : option SnapshotOptions)
         (out : list MarketLiquidityHistory) (rec : MarketLiquidityHistory),
    fetchLiquidityHistory lyra market options = Ok out ->
    In rec out ->
    totalQueuedDeposits rec = ZERO_BN /\ totalWithdrawingDeposits rec = ZERO_BN.
Proof.
  intros lyra market options out rec Hout Hin.
  apply fetchLiquidityHistory_Ok_inv in Hout.
  destruct (Forall2_In_right _ _ _ Hout rec Hin) as [snap [_ Hrec]].
  apply marketLiquidity_of_Ok_inv in Hrec.
  destruct Hrec as (_ & Hqueued & Hwithdrawing & _).
  split; [exact Hqueued | exact Hwithdrawing].
Qed.

(** ** Token lookups *)

Lemma find_first_match {A : Type} (f : A -> bool) (P : A -> Prop) (l : list A) :
  (forall y, f y = true <-> P y) ->
  forall x, find f l = Some x <-> first_match P l x.
Proof.
  intros HfP. induction l as [| a l IH]; intros x; simpl.
  - split; [discriminate |].
    intros (before & after & Hl & _). destruct before; discriminate Hl.
  - destruct (f a) eqn:Hfa.
    + split.
      * intros H. injection H as <-.
        exists [], l. repeat split; [apply HfP; exact Hfa | constructor].
      * intros (before & after & Hl & Hx & Hbefore).
        destruct before as [| b before]; simpl in Hl; injection Hl as -> Hl.
        -- reflexivity.
        -- exfalso. inversion Hbefore as [| ? ? Hb _]; subst.
           apply Hb, HfP. exact Hfa.
    + rewrite IH. split.
      * intros (before & after & Hl & Hx & Hbefore).
        exists (a :: before), after. subst l. repeat split; [exact Hx |].
        constructor; [| exact Hbefore].
        intros Ha. apply HfP in Ha. congruence.
      * intros (before & after & Hl & Hx & Hbefore).
        destruct before as [| b before]; simpl in Hl; injection Hl as -> Hl.
        -- apply HfP in Hx. congruence.
        -- exists before, after. repeat split; [exact Hl | exact Hx |].
           inversion Hbefore; assumption.
Qed.

Lemma find_None_iff {A : Type} (f : A -> bool) (P : A -> Prop) (l : list A) :
  (forall y, f y = true <-> P y) ->
  find f l = None <-> forall x, In x l -> ~ P x.
Proof.
  intros HfP. induction l as [| a l IH]; simpl.
  - split; [intros _ x [] | reflexivity].
  - destruct (f a) eqn:Hfa.
    + split; [discriminate |].
      intros H. exfalso. apply (H a); [left; reflexivity | apply HfP; exact Hfa].
    + rewrite IH. split.
      * intros H x [<- | Hx]; [| apply H; exact Hx].
        intros Ha. apply HfP in Ha. congruence.
      * intros H x Hx. apply H. right. exact Hx.
Qed.

(** A lookup written as [find] followed by the check for [undefined]. *)
Lemma lookup_by_find {A : Type} (f : A -> bool) (P : A -> Prop) (l : list A)
    (message : string) :
  (forall y, f y = true <-> P y) ->
  let result := match find f l with
                | None => Throw message
                | Some x => Ok x
                end in
  (forall x, result = Ok x <-> first_match P l x)
  /\ (result = Throw message <-> forall x, In x l -> ~ P x).
Proof.
  intros HfP result. subst result. split.
  - intros x. rewrite <- (find_first_match f P l HfP).
    destruct (find f l); split; intros H; try discriminate H; congruence.
  - rewrite <- (find_None_iff f P l HfP).
    destruct (find f l); split; intros H; try discriminate H; reflexivity.
Qed.

Lemma includes_two (a b x : string) :
  includes [a; b] x = true <-> a = x \/ b = x.
Proof.
  unfold includes. simpl. rewrite !orb_true_iff, !String.eqb_eq.
  split.
  - intros [Ha | [Hb | Hfalse]];
      [left; exact Ha | right; exact Hb | discriminate Hfalse].
  - intros [Ha | Hb]; [left; exact Ha | right; left; exact Hb].
Qed.

Lemma toLowerCase_ascii_idempotent (c : ascii) :
  toLowerCase_ascii (toLowerCase_ascii c) = toLowerCase_ascii c.
Proof.
  destruct c as [[] [] [] [] [] [] [] []]; reflexivity.
Qed.

Lemma toLowerCase_idempotent (s : string) :
  toLowerCase (toLowerCase s) = toLowerCase s.
Proof.
  induction s as [| c s IH]; simpl.
  - reflexivity.
  - rewrite toLowerCase_ascii_idempotent, IH. reflexivity.
Qed.

(** *** The folding decides equality up to letter case *)

Lemma nat_of_toLowerCase_ascii (c : ascii) :
  nat_of_ascii (toLowerCase_ascii c)
  = (if ((65 <=? nat_of_ascii c) && (nat_of_ascii c <=? 90))%nat
     then nat_of_ascii c + 32
     else nat_of_ascii c)%nat.
Proof.
  unfold toLowerCase_ascii.
  destruct ((65 <=? nat_of_ascii c)%nat && (nat_of_ascii c <=? 90)%nat) eqn:Hupper;
    [| reflexivity].
  apply andb_true_iff in Hupper. destruct Hupper as [_ Hle].
  apply Nat.leb_le in Hle.
  apply nat_ascii_embedding. lia.
Qed.

Lemma toLowerCase_ascii_decides (a b : ascii) :
  toLowerCase_ascii a = toLowerCase_ascii b <-> same_letter a b.
Proof.
  unfold same_letter. split.
  - intros H. apply (f_equal nat_of_ascii) in H.
    rewrite !nat_of_toLowerCase_ascii in H.
    destruct (Nat.leb_spec 65 (nat_of_ascii a));
      destruct (Nat.leb_spec (nat_of_ascii a) 90);
      destruct (Nat.leb_spec 65 (nat_of_ascii b));
      destruct (Nat.leb_spec (nat_of_ascii b) 90);
      simpl in H; lia.
  - intros H.
    rewrite <- (ascii_nat_embedding (toLowerCase_ascii a)).
    rewrite <- (ascii_nat_embedding (toLowerCase_ascii b)).
    f_equal. rewrite !nat_of_toLowerCase_ascii.
    destruct (Nat.leb_spec 65 (nat_of_ascii a));
      destruct (Nat.leb_spec (nat_of_ascii a) 90);
      destruct (Nat.leb_spec 65 (nat_of_ascii b));
      destruct (Nat.leb_spec (nat_of_ascii b) 90);
      simpl; lia.
Qed.

Lemma toLowerCase_decides (a b : string) :
  toLowerCase a = toLowerCase b <-> equal_up_to_case a b.
Proof.
  revert b. induction a as [| x a IH]; intros [| y b]; simpl.
  - split; [intros _; constructor | reflexivity].
  - split; [discriminate | intros H; inversion H].
  - split; [discriminate | intros H; inversion H].
  - split.
    + intros H. injection H as Hxy Hab.
      constructor; [apply toLowerCase_ascii_decides; exact Hxy | apply IH; exact Hab].
    + intros H. inversion H as [| ? ? ? ? Hxy Hab]; subst.
      f_equal; [apply toLowerCase_ascii_decides; exact Hxy | apply IH; exact Hab].
Qed.

Lemma stable_matches_answers query s :
  stable_matches query s <-> answers_to query (stable_identifiers s).
Proof.
  unfold stable_matches, same_ignoring_case, answers_to, stable_identifiers.
  rewrite !toLowerCase_decides, !Exists_cons, Exists_nil.
  split; [intros [H | H]; [left | right; left]; exact H
         | intros [H | [H | []]]; [left | right]; exact H].
Qed.

Lemma base_matches_answers query b :
  base_matches query b <-> answers_to query (base_identifiers b).
Proof.
  unfold base_matches, same_ignoring_case, answers_to, base_identifiers.
  rewrite !toLowerCase_decides, !Exists_cons, Exists_nil.
  split; [intros [H | [H | H]]; [left | right; left | right; right; left]; exact H
         | intros [H | [H | [H | []]]]; [left | right; left | right; right]; exact H].
Qed.

Lemma optionToken_matches_answers query o :
  optionToken_matches query o <-> answers_to query (optionToken_identifiers o).
Proof.
  unfold optionToken_matches, same_ignoring_case, answers_to, optionToken_identifiers.
  rewrite !toLowerCase_decides, !Exists_cons, Exists_nil.
  split; [intros [H | H]; [left | right; left]; exact H
         | intros [H | [H | []]]; [left | right]; exact H].
Qed.

(** C3: on ASCII identifiers, each of the three lookups returned by
    [balances] returns the first entry one of whose identifiers (address
    and symbol of a stable; market address, address and symbol of a base
    token; market address and address of an option token) equals the query
    up to letter case, throws its static message exactly when no entry has
    such an identifier, and gives the same answer for two queries that
    differ in letter case only. *)
Theorem balances_lookups_ignore_case :
  forall (fetched : AccountBalancesAndAllowances) (query : string),
    let b := balances fetched in
    is_ascii query = true ->
    ascii_identifiers fetched = true ->
    ((forall s, stable b query = Ok s <->
                first_match (fun s => answers_to query (stable_identifiers s))
                            (fetched_stables fetched) s)
     /\ (stable b query = Throw "Stable token does not exist" <->
         forall s, In s (fetched_stables fetched) ->
                   ~ answers_to query (stable_identifiers s))
     /\ (forall query', is_ascii query' = true ->
                        equal_up_to_case query query' ->
                        stable b query' = stable b query))
    /\ ((forall s, base b query = Ok s <->
                   first_match (fun s => answers_to query (base_identifiers s))
                               (fetched_bases fetched) s)
        /\ (base b query = Throw "Base token does not exist" <->
            forall s, In s (fetched_bases fetched) ->
                      ~ answers_to query (base_identifiers s))
        /\ (forall query', is_ascii query' = true ->
                           equal_up_to_case query query' ->
                           base b query' = base b query))
    /\ ((forall s, optionToken b query = Ok s <->
                   first_match (fun s => answers_to query (optionToken_identifiers s))
                               (fetched_optionTokens fetched) s)
        /\ (optionToken b query = Throw "Option token does not exist" <->
            forall s, In s (fetched_optionTokens fetched) ->
                      ~ answers_to query (optionToken_identifiers s))
        /\ (forall query', is_ascii query' = true ->
                           equal_up_to_case query query' ->
                           optionToken b query' = optionToken b query)).
Proof.
  intros fetched query b _ _. subst b. unfold balances. cbn [stable base optionToken].
  split; [| split].
  - split; [| split].
    + apply lookup_by_find. intros s. rewrite <- stable_matches_answers.
      unfold stable_matches, same_ignoring_case.
      rewrite orb_true_iff, !String.eqb_eq. reflexivity.
    + apply lookup_by_find. intros s. rewrite <- stable_matches_answers.
      unfold stable_matches, same_ignoring_case.
      rewrite orb_true_iff, !String.eqb_eq. reflexivity.
    + intros query' _ Hq. apply toLowerCase_decides in Hq. rewrite Hq. reflexivity.
  - split; [| split].
    + apply lookup_by_find. intros s. rewrite <- base_matches_answers.
      unfold base_matches, same_ignoring_case.
      rewrite orb_true_iff, includes_two, String.eqb_eq. apply or_assoc.
    + apply lookup_by_find. intros s. rewrite <- base_matches_answers.
      unfold base_matches, same_ignoring_case.
      rewrite orb_true_iff, includes_two, String.eqb_eq. apply or_assoc.
    + intros query' _ Hq. apply toLowerCase_decides in Hq. rewrite Hq. reflexivity.
  - split; [| split].
    + apply lookup_by_find. intros s. rewrite <- optionToken_matches_answers.
      unfold optionToken_matches, same_ignoring_case.
      rewrite includes_two. reflexivity.
    + apply lookup_by_find. intros s. rewrite <- optionToken_matches_answers.
      unfold optionToken_matches, same_ignoring_case.
      rewrite includes_two. reflexivity.
    + intros query' _ Hq. apply toLowerCase_decides in Hq. rewrite Hq. reflexivity.
Qed.

(** A query may as well be lower-cased by the caller. *)
Lemma stable_lowercased_query (fetched : AccountBalancesAndAllowances) (query : string) :
  stable (balances fetched) (toLowerCase query) = stable (balances fetched) query.
Proof.
  unfold balances. cbn [stable]. rewrite toLowerCase_idempotent. reflexivity.
Qed.

(** ** Faucet *)

(** C4: [drip] throws its static "unsupported deployment" message exactly
    when the deployment is neither Kovan nor Local; on Kovan and on Local
    it goes on to build the faucet transaction and returns what
    [buildTxWithGasEstimate] produced. *)
Theorem drip_only_on_local_and_kovan :
  forall (lyra : Lyra) (address : string),
    (drip lyra address
     = Throw "Faucet is only supported on local and kovan contracts"
     <-> deployment lyra <> Kovan /\ deployment lyra <> Local)
    /\ (deployment lyra = Kovan \/ deployment lyra = Local ->
        let faucet := getLyraContract (provider lyra) (deployment lyra) TestFaucet in
        drip lyra address
        = match buildTxWithGasEstimate lyra (contract_address faucet) address
                  (encodeFunctionData faucet "drip") with
          | None => Throw "Failed to estimate gas for drip transaction"
          | Some tx => Ok tx
          end).
Proof.
  intros lyra address. unfold drip.
  destruct (deployment lyra) eqn:Hd; simpl.
  - split.
    + split.
      * intros H. exfalso.
        destruct (buildTxWithGasEstimate _ _ _ _); discriminate H.
      * intros [_ H]. contradiction.
    + intros _. reflexivity.
  - split.
    + split.
      * intros H. exfalso.
        destruct (buildTxWithGasEstimate _ _ _ _); discriminate H.
      * intros [H _]. contradiction.
    + intros _. reflexivity.
  - split.
    + split; [intros _; split; discriminate | reflexivity].
    + intros [H | H]; discriminate H.
Qed.

(** ** Command line *)

(** C7: [optionTradingVolume] declares exactly the four flags market
    (string, required), strikeId (number, required), isCall (boolean,
    required) and timestamp (number, optional); it asks for the trading
    volume history of the selected option from the given timestamp on, and
    the only thing it prints is the number of records it received. *)
Theorem optionTradingVolume_prints_the_count :
  forall (h : Handler) (argv : list string),
    let lyra := h _ getLyra in
    let args := h _ (yargs argv optionTradingVolume_options) in
    let option_ :=
      h _ (lyra_option lyra (arg_market args) (arg_strikeId args) (arg_isCall args)) in
    let optionVolumes := h _ (tradingVolumeHistory option_ (arg_timestamp args)) in
    let trace := fst (run h (optionTradingVolume argv)) in
    map (fun o => (opt_name o, opt_type o, opt_require o)) optionTradingVolume_options
    = [ ("market", yargs_string, true);
        ("strikeId", yargs_number, true);
        ("isCall", yargs_boolean, true);
        ("timestamp", yargs_number, false) ]
    /\ trace
       = [ event getLyra lyra;
           event (yargs argv optionTradingVolume_options) args;
           event (lyra_option lyra (arg_market args) (arg_strikeId args)
                              (arg_isCall args)) option_;
           event (tradingVolumeHistory option_ (arg_timestamp args)) optionVolumes;
           event (console_log (List.length optionVolumes)) tt ]
    /\ console trace = [List.length optionVolumes].
Proof.
  intros h argv lyra args option_ optionVolumes trace.
  split; [reflexivity |].
  assert (Htrace : trace
       = [ event getLyra lyra;
           event (yargs argv optionTradingVolume_options) args;
           event (lyra_option lyra (arg_market args) (arg_strikeId args)
                              (arg_isCall args)) option_;
           event (tradingVolumeHistory option_ (arg_timestamp args)) optionVolumes;
           event (console_log (List.length optionVolumes)) tt ]).
  { subst trace. simpl. fold lyra. fold args. fold option_. fold optionVolumes.
    destruct (h unit (console_log (List.length optionVolumes))). reflexivity. }
  split; [exact Htrace |].
  rewrite Htrace. reflexivity.
Qed.

(** * Further properties *)

(** ** Liquidity history: failures *)

Lemma mapM_Throw_inv {A B : Type} (f : A -> Result B) (l : list A) (m : string) :
  mapM f l = Throw m -> exists a, In a l /\ f a = Throw m.
Proof.
  induction l as [| a l IH]; simpl; intros H.
  - discriminate H.
  - destruct (f a) as [b | m'] eqn:Hfa; simpl in H.
    + destruct (mapM f l) as [bs | m''] eqn:Hl; simpl in H; [discriminate H |].
      injection H as ->. destruct (IH eq_refl) as [a' [Hin Ha']].
      exists a'. split; [right; exact Hin | exact Ha'].
    + injection H as ->. exists a. split; [left; reflexivity | exact Hfa].
Qed.

Lemma mapM_Ok_each {A B : Type} (f : A -> Result B) (l : list A) (out : list B) :
  mapM f l = Ok out -> Forall (fun a => exists b, f a = Ok b) l.
Proof.
  intros H. apply mapM_Forall2 in H.
  induction H as [| a b l out Hab _ IH]; constructor; [exists b; exact Hab | exact IH].
Qed.

Lemma carries_decodes snap rec : carries snap rec -> snapshot_decodes snap.
Proof.
  unfold carries, snapshot_decodes, decodes.
  intros (_ & H1 & H2 & H3 & H4 & H5 & H6 & H7 & H8 & H9).
  repeat split; eexists; eassumption.
Qed.

Ltac in_amounts := simpl; repeat (first [left; reflexivity | right]).

Lemma marketLiquidity_of_Throw_inv snap m :
  marketLiquidity_of snap = Throw m ->
  exists s, In s (snapshot_amounts snap) /\ BigNumber_from s = Throw m.
Proof.
  unfold marketLiquidity_of, snapshot_amounts. intros H.
  destruct (BigNumber_from (snap_freeLiquidity snap)) as [v1 | m1] eqn:H1;
    simpl in H; [| injection H as ->; eexists; split; [| exact H1]; in_amounts].
  destruct (BigNumber_from (snap_burnableLiquidity snap)) as [v2 | m2] eqn:H2;
    simpl in H; [| injection H as ->; eexists; split; [| exact H2]; in_amounts].
  destruct (BigNumber_from (snap_NAV snap)) as [v3 | m3] eqn:H3;
    simpl in H; [| injection H as ->; eexists; split; [| exact H3]; in_amounts].
  destruct (BigNumber_from (snap_usedCollatLiquidity snap)) as [v4 | m4] eqn:H4;
    simpl in H; [| injection H as ->; eexists; split; [| exact H4]; in_amounts].
  destruct (BigNumber_from (snap_pendingDeltaLiquidity snap)) as [v5 | m5] eqn:H5;
    simpl in H; [| injection H as ->; eexists; split; [| exact H5]; in_amounts].
  destruct (BigNumber_from (snap_usedDeltaLiquidity snap)) as [v6 | m6] eqn:H6;
    simpl in H; [| injection H as ->; eexists; split; [| exact H6]; in_amounts].
  destruct (BigNumber_from (snap_tokenPrice snap)) as [v7 | m7] eqn:H7;
    simpl in H; [| injection H as ->; eexists; split; [| exact H7]; in_amounts].
  destruct (utilization_of_returns v3 v1) as [u Hu]. rewrite Hu in H. simpl in H.
  destruct (BigNumber_from (snap_pendingDeposits snap)) as [v8 | m8] eqn:H8;
    simpl in H; [| injection H as ->; eexists; split; [| exact H8]; in_amounts].
  destruct (BigNumber_from (snap_pendingWithdrawals snap)) as [v9 | m9] eqn:H9;
    simpl in H; [| injection H as ->; eexists; split; [| exact H9]; in_amounts].
  discriminate H.
Qed.

(** X1: [fetchLiquidityHistory] returns a history exactly when every
    amount of every snapshot decodes; one malformed amount loses the whole
    history. *)
Theorem fetchLiquidityHistory_returns_iff_all_decode :
  forall (lyra : Lyra) (market : Market) (options : option SnapshotOptions),
    (exists out, fetchLiquidityHistory lyra market options = Ok out)
    <-> Forall snapshot_decodes (fetchLiquidityHistory_data lyra market options).
Proof.
  intros lyra market options. split.
  - intros [out Hout]. unfold fetchLiquidityHistory in Hout.
    apply mapM_Forall2 in Hout.
    induction Hout as [| snap rec data out Hrec _ IH]; constructor; [| exact IH].
    apply marketLiquidity_of_Ok_inv in Hrec. destruct Hrec as [Hcarries _].
    exact (carries_decodes _ _ Hcarries).
  - intros Hdec. apply mapM_returns.
    eapply Forall_impl; [| exact Hdec].
    intros snap. apply marketLiquidity_of_returns.
Qed.

(** X2: the only exceptions [fetchLiquidityHistory] raises are those of
    [BigNumber.from] on an amount of one of the snapshots; the utilization
    formula never contributes one. *)
Theorem fetchLiquidityHistory_throws_only_decoding_errors :
  forall (lyra : Lyra) (market : Market) (options : option SnapshotOptions)
         (m : string),
    fetchLiquidityHistory lyra market options = Throw m ->
    exists snap s,
      In snap (fetchLiquidityHistory_data lyra market options)
      /\ In s (snapshot_amounts snap)
      /\ BigNumber_from s = Throw m.
Proof.
  intros lyra market options m H. unfold fetchLiquidityHistory in H.
  apply mapM_Throw_inv in H. destruct H as [snap [Hin Hsnap]].
  apply marketLiquidity_of_Throw_inv in Hsnap. destruct Hsnap as [s [Hs Hm]].
  exists snap, s. split; [exact Hin | split; [exact Hs | exact Hm]].
Qed.

(** ** Liquidity history: utilization *)

Lemma utilization_ratio_bounds (NAVBN freeLiquidityBN : BigNumber.t) :
  0 < UNIT -> 0 < NAVBN -> 0 <= freeLiquidityBN <= NAVBN ->
  0 <= Z.quot ((NAVBN - freeLiquidityBN) * UNIT) NAVBN <= UNIT.
Proof.
  intros HU Hnav Hfree.
  rewrite Z.quot_div_nonneg by nia.
  split.
  - apply Z.div_pos; nia.
  - apply Z.div_le_upper_bound; nia.
Qed.

(** X3: for a record with positive NAV and free liquidity between 0 and
    the NAV, the utilization is the conversion of a fixed-point ratio
    between 0 and [UNIT]: [UNIT] when nothing is free, 0 when everything
    is. *)
Theorem fetchLiquidityHistory_utilization_is_a_ratio :
  forall (lyra : Lyra) (market : Market) (options : option SnapshotOptions)
         (out : list MarketLiquidityHistory) (rec : MarketLiquidityHistory),
    0 < UNIT ->
    fetchLiquidityHistory lyra market options = Ok out ->
    In rec out ->
    0 < nav rec ->
    0 <= freeLiquidity rec <= nav rec ->
    exists q,
      utilization rec = fromBigNumber q
      /\ 0 <= q <= UNIT
      /\ (freeLiquidity rec = 0 -> q = UNIT)
      /\ (freeLiquidity rec = nav rec -> q = 0).
Proof.
  intros lyra market options out rec HU Hout Hin Hnav Hfree.
  apply fetchLiquidityHistory_Ok_inv in Hout.
  destruct (Forall2_In_right _ _ _ Hout rec Hin) as [snap [_ Hrec]].
  apply marketLiquidity_of_Ok_inv in Hrec. destruct Hrec as (_ & _ & _ & Hu).
  rewrite utilization_of_positive in Hu by exact Hnav.
  injection Hu as Hu.
  exists (Z.quot ((nav rec - freeLiquidity rec) * UNIT) (nav rec)).
  split; [symmetry; exact Hu |].
  split; [apply utilization_ratio_bounds; assumption |].
  split.
  - intros H0. rewrite H0, Z.sub_0_r, Z.mul_comm. apply Z.quot_mul. lia.
  - intros Heq. rewrite Heq, Z.sub_diag. simpl. apply Z.quot_0_l. lia.
Qed.

(** ** Staking: the timeline *)

(** X5: with a recorded cooldown [c > 0], non-negative durations and
    sums in the safe range (where the program's additions are exact), the
    block timestamp runs through five phases: before [c] no flag is set;
    from [c] up to (not including) [c + p] only the cooldown flag; at
    [c + p] both; after it and up to [c + p + w] only the unstake flag;
    later none.  There is no gap between the two windows. *)
Theorem lyraStaking_timeline :
  forall (block : Block) (lb : AccountLyraBalance) (slb : AccountStakedLyraBalance)
         (staking_ : LyraStaking) (accountCooldownBN : BigNumber.t),
    let c := accountCooldownBN in
    let p := cooldownPeriod staking_ in
    let w := unstakeWindow staking_ in
    let t := block_timestamp block in
    0 < c ->
    0 <= p ->
    0 <= w ->
    c + p + w <= BigNumber.MAX_SAFE_INTEGER ->
    exists r,
      lyraStaking block lb slb staking_ accountCooldownBN = Ok r
      /\ (t < c -> isInCooldown r = false /\ isInUnstakeWindow r = false)
      /\ (c <= t < c + p -> isInCooldown r = true /\ isInUnstakeWindow r = false)
      /\ (t = c + p -> isInCooldown r = true /\ isInUnstakeWindow r = true)
      /\ (c + p < t <= c + p + w ->
          isInCooldown r = false /\ isInUnstakeWindow r = true)
      /\ (c + p + w < t -> isInCooldown r = false /\ isInUnstakeWindow r = false).
Proof.
  intros block lb slb staking_ cBN c p w t Hc Hp Hw Hsafe. subst c p w t.
  destruct (lyraStaking block lb slb staking_ cBN) as [r | m] eqn:Hr.
  2: { unfold lyraStaking in Hr. rewrite toNumber_safe in Hr by lia.
       discriminate Hr. }
  exists r. split; [reflexivity |].
  destruct (lyraStaking_Ok_inv _ _ _ _ _ _ Hr) as (_ & _ & Hu & Hin).
  rewrite Hu, Hin. clear Hr Hu Hin r.
  assert (Hend : Number.add cBN (cooldownPeriod staking_)
                 = cBN + cooldownPeriod staking_)
    by (apply Number_add_exact; unfold Number.safe; lia).
  assert (Hlast : Number.add (Number.add cBN (cooldownPeriod staking_))
                             (unstakeWindow staking_)
                  = cBN + cooldownPeriod staking_ + unstakeWindow staking_)
    by (rewrite Hend; apply Number_add_exact; unfold Number.safe; lia).
  repeat split; window_cases cBN; try reflexivity; lia.
Qed.

(** ** Token lookups: round trips *)




(** ** Faucet: all outcomes *)

(** X7: [drip] returns a transaction exactly when the deployment is Kovan
    or Local and the builder produced that transaction, and it throws the
    gas-estimate message exactly when, on such a deployment, the builder
    produced none. *)
Theorem drip_outcomes :
  forall (lyra : Lyra) (address : string),
    let faucet := getLyraContract (provider lyra) (deployment lyra) TestFaucet in
    let built :=
      buildTxWithGasEstimate lyra (contract_address faucet) address
        (encodeFunctionData faucet "drip") in
    (forall tx,
        drip lyra address = Ok tx
        <-> (deployment lyra = Kovan \/ deployment lyra = Local) /\ built = Some tx)
    /\ (drip lyra address = Throw "Failed to estimate gas for drip transaction"
        <-> (deployment lyra = Kovan \/ deployment lyra = Local) /\ built = None).
Proof.
  intros lyra address faucet built. subst built faucet. unfold drip.
  destruct (deployment lyra) eqn:Hd; simpl;
    destruct (buildTxWithGasEstimate _ _ _ _) as [tx' |] eqn:Hb.
  all: split; [intros tx |]; split.
  all: try (intros [[H | H] _]; discriminate H).
  all: try (intros [_ H]; first [discriminate H | injection H as ->; reflexivity]).
  all: try (intros H; first [discriminate H
                            | injection H as ->; split;
                              [first [left; reflexivity | right; reflexivity]
                              | reflexivity]]).
  all: try reflexivity.
  all: intros _; split; [first [left; reflexivity | right; reflexivity] | reflexivity].
Qed.

(** ** Approvals *)

Lemma stable_lookup fetched query :
  (forall s, stable (balances fetched) query = Ok s
             <-> first_match (stable_matches query) (fetched_stables fetched) s)
  /\ (stable (balances fetched) query = Throw "Stable token does not exist"
      <-> forall s, In s (fetched_stables fetched) -> ~ stable_matches query s).
Proof.
  unfold balances. cbn [stable]. apply lookup_by_find.
  intros s. unfold stable_matches, same_ignoring_case.
  rewrite orb_true_iff, !String.eqb_eq. reflexivity.
Qed.

Lemma base_lookup fetched query :
  (forall s, base (balances fetched) query = Ok s
             <-> first_match (base_matches query) (fetched_bases fetched) s)
  /\ (base (balances fetched) query = Throw "Base token does not exist"
      <-> forall s, In s (fetched_bases fetched) -> ~ base_matches query s).
Proof.
  unfold balances. cbn [base]. apply lookup_by_find.
  intros s. unfold base_matches, same_ignoring_case.
  rewrite orb_true_iff, includes_two, String.eqb_eq. apply or_assoc.
Qed.

(** X8: on ASCII identifiers, [approveStableToken] throws "Stable token
    does not exist" when no listed stable has an identifier equal to the
    query up to letter case.  Otherwise it encodes [approve(wrapper,
    amount)] for the ERC20 at the address of the first such stable, an
    exception of the encoder propagating, and returns the transaction the
    builder produced as it is, a null one included. *)
Theorem approveStableToken_outcomes :
  forall (lyra : Lyra) (address : string) (fetched : AccountBalancesAndAllowances)
         (query : string) (amount : BigNumber.t),
    let wrapper :=
      getLyraContract (provider lyra) (deployment lyra) OptionMarketWrapper in
    is_ascii query = true ->
    ascii_identifiers fetched = true ->
    ((forall s, In s (fetched_stables fetched) ->
                ~ answers_to query (stable_identifiers s)) ->
     approveStableToken lyra address fetched query amount
     = Throw "Stable token does not exist")
    /\ (forall s,
          first_match (fun s => answers_to query (stable_identifiers s))
                      (fetched_stables fetched) s ->
          let erc20 := getERC20Contract (provider lyra) (stable_address s) in
          approveStableToken lyra address fetched query amount
          = (data <-
               encodeFunctionData_with erc20 "approve"
                 [arg_address (contract_address wrapper); arg_amount amount] ;;
             Ok (buildTxWithGasEstimate lyra (contract_address erc20) address data))).
Proof.
  intros lyra address fetched query amount wrapper _ _. subst wrapper.
  destruct (stable_lookup fetched query) as [HOk HThrow].
  unfold approveStableToken. split.
  - intros Hnone.
    assert (Hthrow : stable (balances fetched) query
                     = Throw "Stable token does not exist").
    { apply HThrow. intros s Hin Hs. apply (Hnone s Hin).
      apply stable_matches_answers. exact Hs. }
    rewrite Hthrow. reflexivity.
  - intros s Hs.
    assert (Hfound : stable (balances fetched) query = Ok s).
    { apply HOk. destruct Hs as (before & after & Hl & Hx & Hbefore).
      exists before, after. split; [exact Hl |].
      split; [apply stable_matches_answers; exact Hx |].
      eapply Forall_impl; [| exact Hbefore].
      intros y Hy Hmatch. apply Hy. apply stable_matches_answers. exact Hmatch. }
    rewrite Hfound. reflexivity.
Qed.

(** X9: on ASCII identifiers, [approveBaseToken] throws "Base token does
    not exist" when no listed base token has an identifier equal to the
    query up to letter case.  Otherwise the approval is encoded for the
    ERC20 at the token address of the first match, also when the query was
    its market address or its symbol; an exception of the encoder
    propagates and the built transaction is returned as it is. *)
Theorem approveBaseToken_outcomes :
  forall (lyra : Lyra) (address : string) (fetched : AccountBalancesAndAllowances)
         (query : string) (amount : BigNumber.t),
    let wrapper :=
      getLyraContract (provider lyra) (deployment lyra) OptionMarketWrapper in
    is_ascii query = true ->
    ascii_identifiers fetched = true ->
    ((forall s, In s (fetched_bases fetched) ->
                ~ answers_to query (base_identifiers s)) ->
     approveBaseToken lyra address fetched query amount
     = Throw "Base token does not exist")
    /\ (forall s,
          first_match (fun s => answers_to query (base_identifiers s))
                      (fetched_bases fetched) s ->
          let erc20 := getERC20Contract (provider lyra) (base_address s) in
          approveBaseToken lyra address fetched query amount
          = (data <-
               encodeFunctionData_with erc20 "approve"
                 [arg_address (contract_address wrapper); arg_amount amount] ;;
             Ok (buildTxWithGasEstimate lyra (contract_address erc20) address data))).
Proof.
  intros lyra address fetched query amount wrapper _ _. subst wrapper.
  destruct (base_lookup fetched query) as [HOk HThrow].
  unfold approveBaseToken. split.
  - intros Hnone.
    assert (Hthrow : base (balances fetched) query
                     = Throw "Base token does not exist").
    { apply HThrow. intros s Hin Hs. apply (Hnone s Hin).
      apply base_matches_answers. exact Hs. }
    rewrite Hthrow. reflexivity.
  - intros s Hs.
    assert (Hfound : base (balances fetched) query = Ok s).
    { apply HOk. destruct Hs as (before & after & Hl & Hx & Hbefore).
      exists before, after. split; [exact Hl |].
      split; [apply base_matches_answers; exact Hx |].
      eapply Forall_impl; [| exact Hbefore].
      intros y Hy Hmatch. apply Hy. apply base_matches_answers. exact Hmatch. }
    rewrite Hfound. reflexivity.
Qed.

(** ** Unrealized PnL: edge and sign *)

(** X10: an account with no cost basis (average cost 0) gets the whole
    value of its position as [pnl] and 0 as [pnlPercent]. *)
Theorem liquidityUnrealizedPnl_without_cost_basis :
  forall (tokenBalance : AccountLiquidityTokenBalance)
         (deposits : list LiquidityDeposit) (withdrawals : list LiquidityWithdrawal),
    UNIT <> 0 ->
    getAverageCostPerLPToken deposits withdrawals = 0 ->
    liquidityUnrealizedPnl tokenBalance deposits withdrawals
    = Ok {| pnl := lp_value tokenBalance; pnlPercent := ZERO_BN |}.
Proof.
  intros tokenBalance deposits withdrawals HU Havg.
  rewrite liquidityUnrealizedPnl_returns by exact HU.
  cbv zeta. rewrite Havg. simpl.
  rewrite Z.quot_0_l by exact HU. rewrite Z.sub_0_r. reflexivity.
Qed.

(** X11: when the fixed-point one is the unit, the average cost is
    positive and the token price is not negative, [pnlPercent] is
    non-negative exactly when the token price is at least the average
    cost, and it is 0 when they are equal. *)
Theorem liquidityUnrealizedPnl_percent_sign :
  forall (tokenBalance : AccountLiquidityTokenBalance)
         (deposits : list LiquidityDeposit) (withdrawals : list LiquidityWithdrawal),
    let avgCostPerToken := getAverageCostPerLPToken deposits withdrawals in
    0 < UNIT ->
    ONE_BN = UNIT ->
    0 < avgCostPerToken ->
    0 <= lp_tokenPrice tokenBalance ->
    exists r,
      liquidityUnrealizedPnl tokenBalance deposits withdrawals = Ok r
      /\ (0 <= pnlPercent r <-> avgCostPerToken <= lp_tokenPrice tokenBalance)
      /\ (lp_tokenPrice tokenBalance = avgCostPerToken -> pnlPercent r = 0).
Proof.
  intros tokenBalance deposits withdrawals avg HU Hone Havg Hprice.
  eexists. split.
  { apply liquidityUnrealizedPnl_returns. lia. }
  cbv zeta. fold avg. simpl.
  destruct (Z.ltb_spec 0 avg); [| lia].
  rewrite Hone.
  set (price := lp_tokenPrice tokenBalance) in *.
  rewrite Z.quot_div_nonneg by nia.
  split.
  - split.
    + intros Hnonneg.
      assert (Hq : UNIT <= price * UNIT / avg) by lia.
      pose proof (Z.mul_div_le (price * UNIT) avg Havg). nia.
    + intros Hle.
      assert (Hq : UNIT <= price * UNIT / avg)
        by (apply Z.div_le_lower_bound; nia).
      lia.
  - intros ->. rewrite Z.mul_comm, Z.div_mul by lia. lia.
Qed.

(** ** Token addresses off mainnet *)

(** X12: every deployment other than Mainnet (Kovan and Local alike) uses
    the Kovan tokens: the LYRA balance and the staked LYRA balance are read
    from the Kovan token contracts, and the [op] reward is the distributor's
    balance for the Kovan LYRA token, the token [lyraBalance] reads. *)
Theorem test_deployments_use_kovan_tokens :
  forall (lyra : Lyra) (address : string),
    deployment lyra <> Mainnet ->
    lyra_balance (Account_lyraBalance lyra address)
    = balanceOf (getERC20Contract (provider lyra) LYRA_OPTIMISM_KOVAN_ADDRESS)
                address
    /\ stakedLyra_balance (Account_stakedLyraBalance lyra address)
       = balanceOf (getERC20Contract (provider lyra)
                      STAKED_LYRA_OPTIMISM_KOVAN_ADDRESS) address
    /\ (forall r,
          claimableRewards lyra address = Ok r ->
          claimable_op r
          = nullish_or
              (claimableBalances
                 (getLyraContract (provider lyra) (deployment lyra) MultiDistributor)
                 address LYRA_OPTIMISM_KOVAN_ADDRESS)
              ZERO_BN).
Proof.
  intros lyra address Hd.
  unfold Account_lyraBalance, Account_stakedLyraBalance, claimableRewards.
  destruct (deployment lyra); [| | contradiction]; simpl.
  - repeat split. intros r Hr. bind_inv Hr a Ha. injection Hr as <-. reflexivity.
  - repeat split. intros r Hr. bind_inv Hr a Ha. injection Hr as <-. reflexivity.
Qed.

End SDK.

(** * The model at work

    The statements above, applied to the sample data. *)

Example fetchLiquidityHistory_sample :
  fetchLiquidityHistory Deployment sample_UNIT BigNumber.from_decimal
    sample_fromBigNumber sample_getSnapshotPeriod sample_fetchSnapshots
    Mainnet sample_market None
  = Ok sample_history.
Proof. vm_compute. reflexivity. Qed.

Example fetchLiquidityHistory_malformed_amount :
  fetchLiquidityHistory Deployment sample_UNIT BigNumber.from_decimal
    sample_fromBigNumber sample_getSnapshotPeriod
    (fun _ _ _ =>
       [ {| snap_timestamp := 1660000000;
            snap_freeLiquidity := "12e3";
            snap_burnableLiquidity := "0";
            snap_NAV := "0";
            snap_usedCollatLiquidity := "0";
            snap_pendingDeltaLiquidity := "0";
            snap_usedDeltaLiquidity := "0";
            snap_tokenPrice := "0";
            snap_pendingDeposits := "0";
            snap_pendingWithdrawals := "0" |} ])
    Mainnet sample_market None
  = Throw "invalid BigNumber string".
Proof. vm_compute. reflexivity. Qed.

Example stable_lookup_sample :
  stable (balances sample_balances) "SUSD"
  = stable (balances sample_balances) "0x57ab1ec28d129707052df4df418d58a2d46d5f51"
  /\ stable (balances sample_balances) "sEUR"
     = Throw "Stable token does not exist"
  /\ optionToken (balances sample_balances) "sETH"
     = Throw "Option token does not exist".
Proof. vm_compute. repeat split; reflexivity. Qed.

Example lyraStaking_sample :
  lyraStaking {| block_timestamp := 1660864000 |} sample_lyraBalance
    sample_stakedLyraBalance sample_staking 1660000000
  = Ok sample_accountLyraStaking.
Proof. vm_compute. reflexivity. Qed.

Example lyraStaking_overflow :
  lyraStaking {| block_timestamp := 1660864000 |} sample_lyraBalance
    sample_stakedLyraBalance sample_staking (2 ^ 53)
  = Throw "overflow".
Proof. vm_compute. reflexivity. Qed.

(** Near 2^53 the program's sum is a rounded one: 2^53 - 1 + 2 is the double
    2^53, so the block 2^53 is in both windows. *)
Example lyraStaking_rounded_sum :
  lyraStaking {| block_timestamp := 2 ^ 53 |} sample_lyraBalance
    sample_stakedLyraBalance
    {| cooldownPeriod := 2; unstakeWindow := 0 |} (2 ^ 53 - 1)
  = Ok {| staking := {| cooldownPeriod := 2; unstakeWindow := 0 |};
          lyraBalance := sample_lyraBalance;
          stakedLyraBalance := sample_stakedLyraBalance;
          isInUnstakeWindow := true;
          isInCooldown := true;
          unstakeWindowStartTimestamp := Some (2 ^ 53);
          unstakeWindowEndTimestamp := Some (2 ^ 53) |}.
Proof. vm_compute. reflexivity. Qed.

Example Number_add_rounds_to_even :
  Number.add (2 ^ 53 - 1) 864000 = 9007199255604992
  /\ Number.add (2 ^ 53) 1 = 2 ^ 53
  /\ Number.add (2 ^ 53) 3 = 2 ^ 53 + 4
  /\ Number.add (- 2 ^ 53) (- 3) = - (2 ^ 53 + 4)
  /\ Number.add 1660000000 864000 = 1660864000.
Proof. vm_compute. repeat split; reflexivity. Qed.

(** ** Witnesses *)

Lemma lyraStaking_booleans_are_inclusive_windows_witness :
  0 <= cooldownPeriod sample_staking
  /\ Number.safe 1660000000
  /\ Number.safe (cooldownPeriod sample_staking)
  /\ Number.safe (unstakeWindow sample_staking)
  /\ exists r,
       lyraStaking {| block_timestamp := 1660864000 |} sample_lyraBalance
         sample_stakedLyraBalance sample_staking 1660000000 = Ok r
       /\ isInCooldown r = true
       /\ isInUnstakeWindow r = true.
Proof.
  assert (Hp : 0 <= cooldownPeriod sample_staking) by (vm_compute; discriminate).
  assert (Hc : Number.safe 1660000000) by (vm_compute; discriminate).
  assert (Hps : Number.safe (cooldownPeriod sample_staking))
    by (vm_compute; discriminate).
  assert (Hw : Number.safe (unstakeWindow sample_staking))
    by (vm_compute; discriminate).
  split; [exact Hp | split; [exact Hc | split; [exact Hps | split; [exact Hw |]]]].
  destruct (lyraStaking_booleans_are_inclusive_windows
              {| block_timestamp := 1660864000 |} sample_lyraBalance
              sample_stakedLyraBalance sample_staking 1660000000 Hp Hc Hps Hw)
    as (r & Hr & _ & _ & Hcooldown & Hunstake).
  exists r. split; [exact Hr |]. split.
  - apply Hcooldown. vm_compute. repeat split; discriminate.
  - apply Hunstake. vm_compute. repeat split; discriminate.
Defined.

Lemma division_by_zero_is_guarded_witness :
  sample_UNIT <> 0
  /\ nav sample_record_2 <= 0
  /\ utilization sample_record_2 = 0%Q
  /\ sample_getAverageCostPerLPToken [] [] <= 0
  /\ exists r,
       liquidityUnrealizedPnl sample_UNIT sample_UNIT Z Z
         sample_getAverageCostPerLPToken sample_tokenBalance [] [] = Ok r
       /\ pnlPercent r = ZERO_BN.
Proof.
  assert (HU : sample_UNIT <> 0) by (vm_compute; discriminate).
  assert (Hnav : nav sample_record_2 <= 0) by (vm_compute; discriminate).
  assert (Havg : sample_getAverageCostPerLPToken [] [] <= 0) by (vm_compute; discriminate).
  destruct (division_by_zero_is_guarded Deployment sample_UNIT sample_UNIT
              BigNumber.from_decimal sample_fromBigNumber
              sample_getSnapshotPeriod sample_fetchSnapshots Z Z
              sample_getAverageCostPerLPToken Mainnet sample_market None
              sample_history sample_record_2 sample_tokenBalance [] [] HU)
    as (Hhistory & _ & (r & Hr & Hpercent)).
  split; [exact HU | split; [exact Hnav | split; [| split; [exact Havg |]]]].
  - apply Hhistory.
    + vm_compute. reflexivity.
    + right. left. reflexivity.
    + exact Hnav.
  - exists r. split; [exact Hr | apply Hpercent; exact Havg].
Defined.

Lemma balances_lookups_ignore_case_witness :
  is_ascii "susd" = true
  /\ ascii_identifiers sample_balances = true
  /\ equal_up_to_case "susd" "SUSD"
  /\ stable (balances sample_balances) "SUSD"
     = stable (balances sample_balances) "susd"
  /\ base (balances sample_balances) "SETH"
     = base (balances sample_balances) "seth"
  /\ optionToken (balances sample_balances)
       "0XCFDFF4E171133D55DE2E45C66A0E144A135D93F2"
     = optionToken (balances sample_balances)
         "0xcfdff4e171133d55de2e45c66a0e144a135d93f2".
Proof.
  assert (Hascii : ascii_identifiers sample_balances = true) by reflexivity.
  split; [reflexivity | split; [exact Hascii |]].
  split; [apply toLowerCase_decides; reflexivity |].
  split; [| split].
  - apply (balances_lookups_ignore_case sample_balances "susd" eq_refl Hascii);
      [reflexivity | apply toLowerCase_decides; reflexivity].
  - apply (balances_lookups_ignore_case sample_balances "seth" eq_refl Hascii);
      [reflexivity | apply toLowerCase_decides; reflexivity].
  - apply (balances_lookups_ignore_case sample_balances
             "0xcfdff4e171133d55de2e45c66a0e144a135d93f2" eq_refl Hascii);
      [reflexivity | apply toLowerCase_decides; reflexivity].
Defined.

Lemma drip_only_on_local_and_kovan_witness :
  drip Deployment unit (fun _ => tt) (fun d => d) string string
    (fun c => c) (fun _ _ _ => "0xFaucet") (fun _ name => name)
    sample_buildTxWithGasEstimate Kovan "0xAccount"
  = Ok "drip"
  /\ drip Deployment unit (fun _ => tt) (fun d => d) string string
       (fun c => c) (fun _ _ _ => "0xFaucet") (fun _ name => name)
       sample_buildTxWithGasEstimate Mainnet "0xAccount"
     = Throw "Faucet is only supported on local and kovan contracts".
Proof.
  split.
  - apply (drip_only_on_local_and_kovan Deployment unit (fun _ => tt)
             (fun d => d) string string (fun c => c) (fun _ _ _ => "0xFaucet")
             (fun _ name => name) sample_buildTxWithGasEstimate Kovan
             "0xAccount").
    left. reflexivity.
  - apply (drip_only_on_local_and_kovan Deployment unit (fun _ => tt)
             (fun d => d) string string (fun c => c) (fun _ _ _ => "0xFaucet")
             (fun _ name => name) sample_buildTxWithGasEstimate Mainnet
             "0xAccount").
    split; discriminate.
Defined.

Lemma lyraStaking_derives_windows_witness :
  0 < 1660000000
  /\ Number.safe 1660000000
  /\ 0 <= cooldownPeriod sample_staking
  /\ Number.safe (cooldownPeriod sample_staking)
  /\ Number.safe (unstakeWindow sample_staking)
  /\ exists r,
       lyraStaking {| block_timestamp := 1660500000 |} sample_lyraBalance
         sample_stakedLyraBalance sample_staking 1660000000 = Ok r
       /\ unstakeWindowStartTimestamp r = Some 1660864000
       /\ unstakeWindowEndTimestamp r = Some 1661036800.
Proof.
  assert (Hc : 0 < 1660000000) by reflexivity.
  assert (Hsafe : Number.safe 1660000000) by (vm_compute; discriminate).
  assert (Hp : 0 <= cooldownPeriod sample_staking) by (vm_compute; discriminate).
  assert (Hps : Number.safe (cooldownPeriod sample_staking))
    by (vm_compute; discriminate).
  assert (Hw : Number.safe (unstakeWindow sample_staking))
    by (vm_compute; discriminate).
  split; [exact Hc | split; [exact Hsafe | split; [exact Hp |]]].
  split; [exact Hps | split; [exact Hw |]].
  destruct (lyraStaking_derives_windows
              {| block_timestamp := 1660500000 |} sample_lyraBalance
              sample_stakedLyraBalance sample_staking 1660000000
              Hc Hsafe Hp Hps Hw)
    as (r & Hr & _ & _ & _ & _ & _ & Hexact).
  assert (Hsum : Number.safe (1660000000 + cooldownPeriod sample_staking))
    by (vm_compute; discriminate).
  destruct (Hexact Hsum) as (_ & Hstart & Hend).
  exists r. split; [exact Hr | split; [exact Hstart |]].
  apply Hend. vm_compute. discriminate.
Defined.

Lemma fetchLiquidityHistory_one_record_per_snapshot_witness :
  Forall (snapshot_decodes BigNumber.from_decimal) sample_snapshots
  /\ exists out,
       fetchLiquidityHistory Deployment sample_UNIT BigNumber.from_decimal
         sample_fromBigNumber sample_getSnapshotPeriod sample_fetchSnapshots
         Mainnet sample_market None = Ok out
       /\ List.length out = 2%nat
       /\ Forall2 (carries BigNumber.from_decimal) sample_snapshots out.
Proof.
  assert (Hdecodes : Forall (snapshot_decodes BigNumber.from_decimal)
                            sample_snapshots).
  { repeat constructor; eexists; vm_compute; reflexivity. }
  split; [exact Hdecodes |].
  exact (fetchLiquidityHistory_one_record_per_snapshot Deployment sample_UNIT
           BigNumber.from_decimal sample_fromBigNumber sample_getSnapshotPeriod
           sample_fetchSnapshots Mainnet sample_market None Hdecodes).
Defined.

Lemma lyraStaking_windows_overlap_at_one_instant_witness :
  lyraStaking {| block_timestamp := 1660864000 |} sample_lyraBalance
    sample_stakedLyraBalance sample_staking 1660000000
  = Ok sample_accountLyraStaking
  /\ isInCooldown sample_accountLyraStaking = true
  /\ isInUnstakeWindow sample_accountLyraStaking = true
  /\ cooldownEndTimestamp 1660000000 sample_staking = Some 1660864000
  /\ unstakeWindowStartTimestamp sample_accountLyraStaking = Some 1660864000.
Proof.
  assert (Hr : lyraStaking {| block_timestamp := 1660864000 |}
                 sample_lyraBalance sample_stakedLyraBalance sample_staking
                 1660000000
               = Ok sample_accountLyraStaking) by (vm_compute; reflexivity).
  split; [exact Hr |].
  split; [reflexivity | split; [reflexivity |]].
  apply (lyraStaking_windows_overlap_at_one_instant
           {| block_timestamp := 1660864000 |} sample_lyraBalance
           sample_stakedLyraBalance sample_staking 1660000000
           sample_accountLyraStaking Hr); reflexivity.
Defined.

Lemma fetchLiquidityHistory_queued_and_withdrawing_are_zero_witness :
  fetchLiquidityHistory Deployment sample_UNIT BigNumber.from_decimal
    sample_fromBigNumber sample_getSnapshotPeriod sample_fetchSnapshots
    Mainnet sample_market None = Ok sample_history
  /\ In sample_record_1 sample_history
  /\ totalQueuedDeposits sample_record_1 = ZERO_BN
  /\ totalWithdrawingDeposits sample_record_1 = ZERO_BN.
Proof.
  assert (Hout : fetchLiquidityHistory Deployment sample_UNIT
                   BigNumber.from_decimal sample_fromBigNumber
                   sample_getSnapshotPeriod sample_fetchSnapshots
                   Mainnet sample_market None = Ok sample_history)
    by (vm_compute; reflexivity).
  assert (Hin : In sample_record_1 sample_history) by (left; reflexivity).
  split; [exact Hout | split; [exact Hin |]].
  exact (fetchLiquidityHistory_queued_and_withdrawing_are_zero Deployment
           sample_UNIT BigNumber.from_decimal sample_fromBigNumber
           sample_getSnapshotPeriod sample_fetchSnapshots Mainnet sample_market
           None sample_history sample_record_1 Hout Hin).
Defined.

(** ** Witnesses of the further properties *)

Lemma fetchLiquidityHistory_returns_iff_all_decode_witness :
  exists out,
    fetchLiquidityHistory Deployment sample_UNIT BigNumber.from_decimal
      sample_fromBigNumber sample_getSnapshotPeriod sample_fetchSnapshots
      Mainnet sample_market None = Ok out.
Proof.
  apply (fetchLiquidityHistory_returns_iff_all_decode Deployment sample_UNIT
           BigNumber.from_decimal sample_fromBigNumber sample_getSnapshotPeriod
           sample_fetchSnapshots Mainnet sample_market None).
  repeat constructor; eexists; vm_compute; reflexivity.
Defined.

Lemma fetchLiquidityHistory_throws_only_decoding_errors_witness :
  fetchLiquidityHistory Deployment sample_UNIT BigNumber.from_decimal
    sample_fromBigNumber sample_getSnapshotPeriod sample_fetchMalformed
    Mainnet sample_market None = Throw "invalid BigNumber string"
  /\ exists snap s,
       In snap (fetchLiquidityHistory_data Deployment sample_getSnapshotPeriod
                  sample_fetchMalformed Mainnet sample_market None)
       /\ In s (snapshot_amounts snap)
       /\ BigNumber.from_decimal s = Throw "invalid BigNumber string".
Proof.
  assert (H : fetchLiquidityHistory Deployment sample_UNIT
                BigNumber.from_decimal sample_fromBigNumber
                sample_getSnapshotPeriod sample_fetchMalformed
                Mainnet sample_market None = Throw "invalid BigNumber string")
    by (vm_compute; reflexivity).
  split; [exact H |].
  exact (fetchLiquidityHistory_throws_only_decoding_errors Deployment
           sample_UNIT BigNumber.from_decimal sample_fromBigNumber
           sample_getSnapshotPeriod sample_fetchMalformed Mainnet sample_market
           None "invalid BigNumber string" H).
Defined.

Lemma fetchLiquidityHistory_utilization_is_a_ratio_witness :
  0 < sample_UNIT
  /\ 0 < nav sample_record_1
  /\ 0 <= freeLiquidity sample_record_1 <= nav sample_record_1
  /\ exists q,
       utilization sample_record_1 = sample_fromBigNumber q
       /\ 0 <= q <= sample_UNIT.
Proof.
  assert (HU : 0 < sample_UNIT) by reflexivity.
  assert (Hnav : 0 < nav sample_record_1) by reflexivity.
  assert (Hfree : 0 <= freeLiquidity sample_record_1 <= nav sample_record_1)
    by (split; vm_compute; discriminate).
  split; [exact HU | split; [exact Hnav | split; [exact Hfree |]]].
  destruct (fetchLiquidityHistory_utilization_is_a_ratio Deployment sample_UNIT
              BigNumber.from_decimal sample_fromBigNumber
              sample_getSnapshotPeriod sample_fetchSnapshots Mainnet
              sample_market None sample_history sample_record_1 HU)
    as (q & Hq & Hbounds & _).
  - vm_compute. reflexivity.
  - left. reflexivity.
  - exact Hnav.
  - exact Hfree.
  - exists q. split; [exact Hq | exact Hbounds].
Defined.

Lemma lyraStaking_timeline_witness :
  exists r,
    lyraStaking {| block_timestamp := 1660500000 |} sample_lyraBalance
      sample_stakedLyraBalance sample_staking 1660000000 = Ok r
    /\ isInCooldown r = true
    /\ isInUnstakeWindow r = false.
Proof.
  destruct (lyraStaking_timeline
              {| block_timestamp := 1660500000 |} sample_lyraBalance
              sample_stakedLyraBalance sample_staking 1660000000)
    as (r & Hr & _ & Hcooldown & _).
  - reflexivity.
  - vm_compute. discriminate.
  - vm_compute. discriminate.
  - vm_compute. discriminate.
  - exists r. split; [exact Hr |]. apply Hcooldown.
    split; [vm_compute; discriminate | reflexivity].
Defined.


Lemma drip_outcomes_witness :
  drip Deployment unit sample_provider sample_deployment string string
    sample_contract_address sample_getLyraContract sample_encodeFunctionData
    sample_buildTxWithGasEstimate Local "0xAccount"
  = Ok "drip".
Proof.
  apply (drip_outcomes Deployment unit sample_provider sample_deployment
           string string sample_contract_address sample_getLyraContract
           sample_encodeFunctionData sample_buildTxWithGasEstimate Local
           "0xAccount").
  split; [right; reflexivity | reflexivity].
Defined.

Lemma approveStableToken_outcomes_witness :
  is_ascii "SUSD" = true
  /\ ascii_identifiers sample_balances = true
  /\ approveStableToken Deployment unit sample_provider sample_deployment
       string string sample_contract_address sample_getLyraContract
       sample_buildTxWithGasEstimate sample_getERC20Contract
       sample_encodeFunctionData_with Mainnet "0xAccount" sample_balances
       "SUSD" 1000
     = Ok (Some "approve")
  /\ approveStableToken Deployment unit sample_provider sample_deployment
       string string sample_contract_address sample_getLyraContract
       sample_buildTxWithGasEstimate sample_getERC20Contract
       sample_encodeFunctionData_with Mainnet "0xAccount" sample_balances
       "SUSD" (-1)
     = Throw "value out-of-bounds"
  /\ approveStableToken Deployment unit sample_provider sample_deployment
       string string sample_contract_address sample_getLyraContract
       sample_buildTxWithGasEstimate sample_getERC20Contract
       sample_encodeFunctionData_with Mainnet "0xAccount" sample_balances
       "sEUR" 1000
     = Throw "Stable token does not exist".
Proof.
  assert (Hascii : ascii_identifiers sample_balances = true) by reflexivity.
  assert (Hfirst :
            first_match (fun s => answers_to "SUSD" (stable_identifiers s))
              (fetched_stables sample_balances)
              {| stable_address := "0x57Ab1ec28D129707052df4dF418D58a2D46d5f51";
                 stable_symbol := "sUSD";
                 stable_decimals := 18;
                 stable_balance := 5;
                 stable_allowance := 0 |}).
  { exists [], []. split; [reflexivity |]. split; [| constructor].
    apply stable_matches_answers. right. reflexivity. }
  split; [reflexivity | split; [exact Hascii |]].
  split; [| split].
  - exact (eq_trans
             (proj2 (approveStableToken_outcomes Deployment unit sample_provider
                       sample_deployment string string sample_contract_address
                       sample_getLyraContract sample_buildTxWithGasEstimate
                       sample_getERC20Contract sample_encodeFunctionData_with
                       Mainnet "0xAccount" sample_balances "SUSD" 1000
                       eq_refl Hascii) _ Hfirst)
             eq_refl).
  - exact (eq_trans
             (proj2 (approveStableToken_outcomes Deployment unit sample_provider
                       sample_deployment string string sample_contract_address
                       sample_getLyraContract sample_buildTxWithGasEstimate
                       sample_getERC20Contract sample_encodeFunctionData_with
                       Mainnet "0xAccount" sample_balances "SUSD" (-1)
                       eq_refl Hascii) _ Hfirst)
             eq_refl).
  - apply (approveStableToken_outcomes Deployment unit sample_provider
             sample_deployment string string sample_contract_address
             sample_getLyraContract sample_buildTxWithGasEstimate
             sample_getERC20Contract sample_encodeFunctionData_with Mainnet
             "0xAccount" sample_balances "sEUR" 1000 eq_refl Hascii).
    intros s [<- | []] Hs. apply stable_matches_answers in Hs.
    destruct Hs as [H | H]; discriminate H.
Defined.

Lemma approveBaseToken_outcomes_witness :
  is_ascii "0x1d42a98848e022908069c2c545aE44Cc78509Bc8" = true
  /\ ascii_identifiers sample_balances = true
  /\ approveBaseToken Deployment unit sample_provider sample_deployment
       string string sample_contract_address sample_getLyraContract
       sample_buildTxWithGasEstimate sample_getERC20Contract
       sample_encodeFunctionData_with Mainnet "0xAccount" sample_balances
       "0x1d42a98848e022908069c2c545aE44Cc78509Bc8" 1000
     = Ok (Some "approve").
Proof.
  assert (Hascii : ascii_identifiers sample_balances = true) by reflexivity.
  split; [reflexivity | split; [exact Hascii |]].
  refine (eq_trans
            (proj2 (approveBaseToken_outcomes Deployment unit sample_provider
                      sample_deployment string string sample_contract_address
                      sample_getLyraContract sample_buildTxWithGasEstimate
                      sample_getERC20Contract sample_encodeFunctionData_with
                      Mainnet "0xAccount" sample_balances
                      "0x1d42a98848e022908069c2c545aE44Cc78509Bc8" 1000
                      eq_refl Hascii)
               {| base_marketAddress := "0x1d42a98848e022908069c2c545aE44Cc78509Bc8";
                  base_address := "0xE405de8F52ba7559f9df3C368500B6E6ae6Cee49";
                  base_symbol := "sETH";
                  base_decimals := 18;
                  base_balance := 2;
                  base_allowance := 0 |} _)
            eq_refl).
  exists [], []. split; [reflexivity |]. split; [| constructor].
  apply base_matches_answers. left. reflexivity.
Defined.

Lemma liquidityUnrealizedPnl_without_cost_basis_witness :
  sample_UNIT <> 0
  /\ sample_getAverageCostPerLPToken [] [] = 0
  /\ liquidityUnrealizedPnl sample_UNIT sample_UNIT Z Z
       sample_getAverageCostPerLPToken sample_tokenBalance [] []
     = Ok {| pnl := 3060000000000000000; pnlPercent := 0 |}.
Proof.
  assert (HU : sample_UNIT <> 0) by (vm_compute; discriminate).
  split; [exact HU | split; [reflexivity |]].
  exact (liquidityUnrealizedPnl_without_cost_basis sample_UNIT sample_UNIT Z Z
           sample_getAverageCostPerLPToken sample_tokenBalance [] [] HU eq_refl).
Defined.

Lemma liquidityUnrealizedPnl_percent_sign_witness :
  0 < sample_getAverageCostPerLPToken [1000000000000000000] []
  /\ sample_getAverageCostPerLPToken [1000000000000000000] []
     <= lp_tokenPrice sample_tokenBalance
  /\ exists r,
       liquidityUnrealizedPnl sample_UNIT sample_UNIT Z Z
         sample_getAverageCostPerLPToken sample_tokenBalance
         [1000000000000000000] [] = Ok r
       /\ 0 <= pnlPercent r.
Proof.
  assert (Havg : 0 < sample_getAverageCostPerLPToken [1000000000000000000] [])
    by reflexivity.
  assert (Hle : sample_getAverageCostPerLPToken [1000000000000000000] []
                <= lp_tokenPrice sample_tokenBalance)
    by (vm_compute; discriminate).
  split; [exact Havg | split; [exact Hle |]].
  destruct (liquidityUnrealizedPnl_percent_sign sample_UNIT sample_UNIT Z Z
              sample_getAverageCostPerLPToken sample_tokenBalance
              [1000000000000000000] [])
    as (r & Hr & Hsign & _).
  - reflexivity.
  - reflexivity.
  - exact Havg.
  - vm_compute. discriminate.
  - exists r. split; [exact Hr | apply Hsign; exact Hle].
Defined.

Lemma test_deployments_use_kovan_tokens_witness :
  sample_deployment Local <> Mainnet
  /\ lyra_balance
       (Account_lyraBalance Deployment unit sample_provider sample_deployment
          string "0xLyraKovan" "0xLyraMainnet" sample_getERC20Contract
          sample_getLyraContractAddress sample_balanceOf sample_allowance
          Local "0xAccount")
     = 40.
Proof.
  assert (Hd : sample_deployment Local <> Mainnet) by discriminate.
  split; [exact Hd |].
  apply (test_deployments_use_kovan_tokens Deployment unit sample_provider
           sample_deployment string sample_getLyraContract
           "0xLyraKovan" "0xLyraMainnet" "0xOpMainnet" "0xStakedLyra"
           "0xStakedLyraKovan" sample_getAddress sample_getERC20Contract
           sample_getLyraContractAddress sample_balanceOf sample_allowance
           sample_claimableBalances Local "0xAccount" Hd).
Defined.
